(** * The API clients of the nutrition tracker

    Two clients talk to the same REST backend:
    - the SwiftUI app, whose client is [NetworkManager]
      (AINUT/Services/NetworkManager.swift), module [AINUT] below;
    - the React Native app, whose client is [apiRequest]
      (src/config/api.js) and whose screens call it, module [RN] below.

    Asynchronous code is modelled sequentially: an [async] function is a
    state-passing function that runs to completion, every network call
    is answered by an oracle that sees the requests sent so far, and
    every request handed to the platform is recorded on a wire log. *)

From Stdlib Require Import ZArith.
From stdpp Require Import base option list strings pretty gmap.

Set Warnings "-register-all".

(** ** JSON values

    The parsed form of a JSON text. Objects are finite maps, as the
    parsers of both platforms deliver them. The numeric type is left
    open: no part of either client computes with a received number
    except through the platform's own decoding and arithmetic. *)

Inductive json (number : Type) : Type :=
  | JNull
  | JBool (b : bool)
  | JNum (n : number)
  | JStr (s : string)
  | JArr (items : list (json number))
  | JObj (members : gmap string (json number)).

Arguments JNull {number}.
Arguments JBool {number} b.
Arguments JNum {number} n.
Arguments JStr {number} s.
Arguments JArr {number} items.
Arguments JObj {number} members.

(** A message body. [JSONData j] stands for the bytes of a JSON text
    that parses to [j]; [RawData] for bytes that are not a JSON text
    (an HTML error page, an empty body, a multipart form). *)
Inductive Data (number : Type) : Type :=
  | JSONData (j : json number)
  | RawData (bytes : string).

Arguments JSONData {number} j.
Arguments RawData {number} bytes.

Definition parsed {number} (data : Data number) : option (json number) :=
  match data with
  | JSONData j => Some j
  | RawData _ => None
  end.

Definition member {number} (key : string) (j : json number) : option (json number) :=
  match j with
  | JObj members => members !! key
  | _ => None
  end.

Definition as_string {number} (j : json number) : option string :=
  match j with
  | JStr s => Some s
  | _ => None
  end.

Definition as_bool {number} (j : json number) : option bool :=
  match j with
  | JBool b => Some b
  | _ => None
  end.

(** ** The SwiftUI client *)

Module AINUT.

(** *** Models (AINUT/Models/Models.swift) *)

Record User := {
  id : Z;
  username : string;
  email : string;
  isActive : bool;
  createdAt : string
}.

Record UserCreate := {
  create_username : string;
  create_email : string;
  create_password : string
}.

Record UserLogin := {
  login_username : string;
  login_password : string
}.

Record Token := {
  accessToken : string;
  tokenType : string
}.

Record APIError := { detail : string }.

(** *** Errors (the end of NetworkManager.swift) *)

Inductive NetworkError :=
  | invalidURL
  | notAuthenticated
  | invalidResponse
  | serverError (code : Z)
  | apiError (message : string).

Definition errorDescription (e : NetworkError) : string :=
  match e with
  | invalidURL => "Invalid URL"
  | notAuthenticated => "Not authenticated"
  | invalidResponse => "Invalid response"
  | serverError code => "Server error: " +:+ pretty code
  | apiError message => message
  end.

(** Everything a [throws] function of the client can throw: its own
    [NetworkError], or an error of Foundation (the coders, the URL
    loading system). *)
Inductive Error :=
  | networkError (e : NetworkError)
  | DecodingError
  | EncodingError
  | URLError (reason : string).

Coercion networkError : NetworkError >-> Error.

(** *** Requests and responses *)

Record URLRequest (number : Type) := {
  url : string;
  httpMethod : string;
  allHTTPHeaderFields : gmap string string;
  httpBody : option (Data number)
}.

Arguments url {number} _.
Arguments httpMethod {number} _.
Arguments allHTTPHeaderFields {number} _.
Arguments httpBody {number} _.

Inductive URLResponse :=
  | HTTPURLResponse (statusCode : Z)
  | OtherURLResponse.

(** *** The observable object *)

Record NetworkManager := {
  isAuthenticated : bool;
  currentUser : option User;
  isLoading : bool;
  errorMessage : option string;
  (** the value of [UserDefaults.standard.string(forKey: "auth_token")] *)
  authToken : option string
}.

Definition set_isAuthenticated (b : bool) (nm : NetworkManager) : NetworkManager :=
  {| isAuthenticated := b; currentUser := currentUser nm; isLoading := isLoading nm;
     errorMessage := errorMessage nm; authToken := authToken nm |}.

Definition set_currentUser (u : option User) (nm : NetworkManager) : NetworkManager :=
  {| isAuthenticated := isAuthenticated nm; currentUser := u; isLoading := isLoading nm;
     errorMessage := errorMessage nm; authToken := authToken nm |}.

Definition set_isLoading (b : bool) (nm : NetworkManager) : NetworkManager :=
  {| isAuthenticated := isAuthenticated nm; currentUser := currentUser nm; isLoading := b;
     errorMessage := errorMessage nm; authToken := authToken nm |}.

Definition set_errorMessage (m : option string) (nm : NetworkManager) : NetworkManager :=
  {| isAuthenticated := isAuthenticated nm; currentUser := currentUser nm;
     isLoading := isLoading nm; errorMessage := m; authToken := authToken nm |}.

Definition set_authToken (t : option string) (nm : NetworkManager) : NetworkManager :=
  {| isAuthenticated := isAuthenticated nm; currentUser := currentUser nm;
     isLoading := isLoading nm; errorMessage := errorMessage nm; authToken := t |}.

(** *** The effect monad: manager state, wire log, thrown errors *)

(** How a call ends: it returns, it throws, or the process traps (a
    forced unwrap of nil), which no [catch] sees. *)
Inductive Result (A : Type) : Type :=
  | Return (a : A)
  | Throw (e : Error)
  | Trap.

Arguments Return {A} a.
Arguments Throw {A} e.
Arguments Trap {A}.

Record World (number : Type) := {
  self : NetworkManager;
  wire : list (URLRequest number)
}.

Arguments self {number} _.
Arguments wire {number} _.
Arguments Build_World {number} _ _.

Definition Async (number A : Type) : Type := World number → Result A * World number.

Section Client.

Context {number : Type}.

Abbreviation value := (json number).
Abbreviation Request := (URLRequest number).
Abbreviation M := (Async number).

#[local] Instance Async_ret : MRet M := λ A a w, (Return a, w).

#[local] Instance Async_bind : MBind M := λ A B f m w,
  match m w with
  | (Return a, w') => f a w'
  | (Throw e, w') => (Throw e, w')
  | (Trap, w') => (Trap, w')
  end.

Definition throw {A} (e : Error) : M A := λ w, (Throw e, w).

(** [do { body } catch { handler }] *)
Definition do_catch {A} (body : M A) (handler : Error → M A) : M A := λ w,
  match body w with
  | (Return a, w') => (Return a, w')
  | (Throw e, w') => handler e w'
  | (Trap, w') => (Trap, w')
  end.

Definition read {A} (field : NetworkManager → A) : M A := λ w, (Return (field (self w)), w).

Definition assign (update : NetworkManager → NetworkManager) : M unit := λ w,
  (Return (), {| self := update (self w); wire := wire w |}).

(** [guard let x = o else { throw e }] *)
Definition guard_let {A} (o : option A) (e : Error) : M A :=
  match o with
  | Some a => mret a
  | None => throw e
  end.

(** *** Codable *)

Class Codable (T : Type) := {
  toJSON : T → option value;
  fromJSON : value → option T
}.

(** [try JSONEncoder().encode(x)] *)
Definition JSONEncoder_encode {T} `{Codable T} (x : T) : M (Data number) :=
  match toJSON x with
  | Some j => mret (JSONData j)
  | None => throw EncodingError
  end.

(** [try? JSONDecoder().decode(T.self, from: data)] *)
Definition JSONDecoder_decode {T} `{Codable T} (data : Data number) : option T :=
  parsed data ≫= fromJSON.

(** How [JSONDecoder] reads an [Int] out of a JSON number. *)
Variable number_to_Int : number → option Z.
Variable number_of_Int : Z → number.

#[local] Instance Codable_APIError : Codable APIError := {|
  toJSON e := Some (JObj {[ "detail" := JStr (detail e) ]});
  fromJSON j := d ← member "detail" j ≫= as_string; Some {| detail := d |}
|}.

#[local] Instance Codable_Token : Codable Token := {|
  toJSON t := Some (JObj (<[ "access_token" := JStr (accessToken t) ]>
                            {[ "token_type" := JStr (tokenType t) ]}));
  fromJSON j :=
    a ← member "access_token" j ≫= as_string;
    t ← member "token_type" j ≫= as_string;
    Some {| accessToken := a; tokenType := t |}
|}.

#[local] Instance Codable_UserLogin : Codable UserLogin := {|
  toJSON u := Some (JObj (<[ "username" := JStr (login_username u) ]>
                            {[ "password" := JStr (login_password u) ]}));
  fromJSON j :=
    u ← member "username" j ≫= as_string;
    p ← member "password" j ≫= as_string;
    Some {| login_username := u; login_password := p |}
|}.

#[local] Instance Codable_UserCreate : Codable UserCreate := {|
  toJSON u := Some (JObj (<[ "username" := JStr (create_username u) ]>
                           (<[ "email" := JStr (create_email u) ]>
                              {[ "password" := JStr (create_password u) ]})));
  fromJSON j :=
    u ← member "username" j ≫= as_string;
    e ← member "email" j ≫= as_string;
    p ← member "password" j ≫= as_string;
    Some {| create_username := u; create_email := e; create_password := p |}
|}.

Definition as_Int (j : value) : option Z :=
  match j with
  | JNum n => number_to_Int n
  | _ => None
  end.

#[local] Instance Codable_User : Codable User := {|
  toJSON u := Some (JObj (<[ "id" := JNum (number_of_Int (id u)) ]>
                           (<[ "username" := JStr (username u) ]>
                           (<[ "email" := JStr (email u) ]>
                           (<[ "is_active" := JBool (isActive u) ]>
                              {[ "created_at" := JStr (createdAt u) ]})))));
  fromJSON j :=
    i ← member "id" j ≫= as_Int;
    u ← member "username" j ≫= as_string;
    e ← member "email" j ≫= as_string;
    a ← member "is_active" j ≫= as_bool;
    c ← member "created_at" j ≫= as_string;
    Some {| id := i; username := u; email := e; isActive := a; createdAt := c |}
|}.

(** [[String: Any]], the body of the second [performRequest] overload,
    which [JSONSerialization] writes out as it is. *)
#[local] Instance Codable_Any : Codable (gmap string value) := {|
  toJSON m := Some (JObj m);
  fromJSON j := match j with JObj m => Some m | _ => None end
|}.

(** [[String: String]]: an object all of whose values are strings. *)
#[local] Instance Codable_Strings : Codable (gmap string string) := {|
  toJSON m := Some (JObj (JStr <$> m));
  fromJSON j :=
    match j with
    | JObj m =>
        if decide (map_Forall (λ _ v, is_Some (as_string v)) m)
        then Some (omap as_string m)
        else None
    | _ => None
    end
|}.

(** *** The platform *)

(** [URL(string:)]: the text of the URL, or [None] where Foundation
    returns nil. *)
Variable URL_init : string → option string.

(** [URLSession.shared.data(for:)], told the requests sent before this
    one: a transport error, or the body and the response. *)
Variable URLSession_data :
  list Request → Request → Error + (Data number * URLResponse).

Definition baseURL : string := "https://nutai-production.up.railway.app".

Definition setValue (v field : string) (request : Request) : Request :=
  {| url := url request; httpMethod := httpMethod request;
     allHTTPHeaderFields := <[ field := v ]> (allHTTPHeaderFields request);
     httpBody := httpBody request |}.

Definition set_httpMethod (m : string) (request : Request) : Request :=
  {| url := url request; httpMethod := m;
     allHTTPHeaderFields := allHTTPHeaderFields request;
     httpBody := httpBody request |}.

Definition set_httpBody (b : Data number) (request : Request) : Request :=
  {| url := url request; httpMethod := httpMethod request;
     allHTTPHeaderFields := allHTTPHeaderFields request;
     httpBody := Some b |}.

(** [URLRequest(url:)] *)
Definition URLRequest_init (u : string) : Request :=
  {| url := u; httpMethod := "GET"; allHTTPHeaderFields := ∅; httpBody := None |}.

(** [try await URLSession.shared.data(for: request)]: the request goes
    on the wire whether or not an answer comes back. *)
Definition URLSession_shared_data (request : Request) : M (Data number * URLResponse) := λ w,
  let w' := {| self := self w; wire := wire w ++ [request] |} in
  match URLSession_data (wire w) request with
  | inl e => (Throw e, w')
  | inr answer => (Return answer, w')
  end.

Definition as_HTTPURLResponse (response : URLResponse) : option Z :=
  match response with
  | HTTPURLResponse statusCode => Some statusCode
  | OtherURLResponse => None
  end.

(** *** The generic request handler

    Both overloads of [performRequest] have this text; they differ in
    the encoder of the body, which is the [Codable] instance of [T]
    here ([Codable_Any] for the [[String: Any]] overload). *)
Definition performRequest {T U} `{Codable T} `{Codable U}
    (endpoint method : string) (body : option T) (requiresAuth : bool) : M U :=
  u ← guard_let (URL_init (baseURL +:+ endpoint)) invalidURL;
  let request := URLRequest_init u in
  let request := set_httpMethod method request in
  let request := setValue "application/json" "Content-Type" request in
  request ← (if requiresAuth then
               stored ← read authToken;
               token ← guard_let stored notAuthenticated;
               mret (setValue ("Bearer " +:+ token) "Authorization" request)
             else mret request);
  request ← match body with
            | Some body => encoded ← JSONEncoder_encode body;
                           mret (set_httpBody encoded request)
            | None => mret request
            end;
  '(data, response) ← URLSession_shared_data request;
  statusCode ← guard_let (as_HTTPURLResponse response) invalidResponse;
  if bool_decide (statusCode = 200%Z ∨ statusCode = 201%Z) then
    guard_let (JSONDecoder_decode data) DecodingError
  else
    match JSONDecoder_decode (T := APIError) data with
    | Some errorResponse => throw (apiError (detail errorResponse))
    | None => throw (serverError statusCode)
    end.

(** *** Authentication *)

Definition logout : M unit :=
  assign (set_authToken None);;
  assign (set_isAuthenticated false);;
  assign (set_currentUser None).

Definition getCurrentUser : M unit :=
  do_catch
    (user ← performRequest (T := gmap string value) (U := User)
              "/auth/me" "GET" None true;
     assign (set_currentUser (Some user)))
    (λ _, logout).

(** [error.localizedDescription]: the [errorDescription] of a
    [NetworkError], Foundation's own text for its errors. *)
Variable foundationDescription : Error → string.

Definition localizedDescription (error : Error) : string :=
  match error with
  | networkError e => errorDescription e
  | _ => foundationDescription error
  end.

Definition login (username password : string) : M unit :=
  assign (set_isLoading true);;
  assign (set_errorMessage None);;
  let userLogin := {| login_username := username; login_password := password |} in
  do_catch
    (token ← performRequest (U := Token) "/auth/login" "POST" (Some userLogin) false;
     assign (set_authToken (Some (accessToken token)));;
     assign (set_isAuthenticated true);;
     getCurrentUser)
    (λ error, assign (set_errorMessage (Some (localizedDescription error))));;
  assign (set_isLoading false).

Definition register (username email password : string) : M unit :=
  assign (set_isLoading true);;
  assign (set_errorMessage None);;
  let userCreate := {| create_username := username; create_email := email;
                       create_password := password |} in
  do_catch
    (_ ← performRequest (U := User) "/auth/register" "POST" (Some userCreate) false;
     login username password)
    (λ error, assign (set_errorMessage (Some (localizedDescription error))));;
  assign (set_isLoading false).

(** The [Task] that [checkAuthStatus] starts is run to its end here. *)
Definition checkAuthStatus : M unit :=
  stored ← read authToken;
  assign (set_isAuthenticated (bool_decide (stored ≠ None)));;
  authenticated ← read isAuthenticated;
  if authenticated : bool then getCurrentUser else mret ().


(** *** Food logging *)

(** Swift's [Double], and [Double(_:)] on an [Int]. *)
Context {Double : Type}.
Variable Double_init : Z → Double.

Record Food := {
  food_name : string;
  food_calories : Z;
  food_proteinG : Double;
  food_carbsG : Double;
  food_fatG : Double
}.

Record MealResponse := {
  mealName : string;
  mealType : string;
  foods : list Food;
  totalCalories : Z;
  analysisMethod : string
}.

Record FoodLogItem := {
  name : string;
  calories : Double;
  proteinG : Double;
  carbsG : Double;
  fatG : Double;
  micronutrients : option (gmap string Double)
}.

Record SaveFoodLogRequest := {
  request_userId : string;
  request_dateString : string;
  request_mealTime : string;
  request_foods : list FoodLogItem;
  request_totalCalories : Double
}.

Record AchievementResponse := {
  achievement_name : string;
  achievement_description : string;
  achievement_points : Z;
  achievement_badge : string
}.

Record SaveFoodLogResponse := {
  message : string;
  logId : string;
  achievements : list AchievementResponse
}.

(** The conformances the compiler synthesizes for the food-log
    messages. *)
Context `{!Codable SaveFoodLogRequest} `{!Codable SaveFoodLogResponse}.

(** [DateFormatter] with format yyyy-MM-dd applied to [Date()]. *)
Variable today : string.

Definition saveFoodLog (mealTime : string) (foods : list FoodLogItem)
    (totalCalories : Double) : M SaveFoodLogResponse :=
  user ← read currentUser;
  userId ← guard_let (username <$> user) notAuthenticated;
  let dateString := today in
  let request := {| request_userId := userId; request_dateString := dateString;
                    request_mealTime := mealTime; request_foods := foods;
                    request_totalCalories := totalCalories |} in
  performRequest "/food-logs" "POST" (Some request) true.

(** *** Image upload *)

(** [UUID().uuidString] *)
Variable boundary : string.

Definition CRLF : string :=
  String (Ascii.ascii_of_nat 13) (String (Ascii.ascii_of_nat 10) "").
Definition quote : string := String (Ascii.ascii_of_nat 34) "".

Definition uploadImage (imageData : string) (imageType : string) : M string :=
  stored ← read authToken;
  token ← guard_let stored notAuthenticated;
  match URL_init (baseURL +:+ "/upload-user-image") with
  | None => λ w, (Trap, w)
  | Some u =>
    let request := URLRequest_init u in
    let request := set_httpMethod "POST" request in
    let request := setValue ("Bearer " +:+ token) "Authorization" request in
    let request :=
      setValue ("multipart/form-data; boundary=" +:+ boundary) "Content-Type" request in
    let body := "" in
    let body := body +:+ "--" +:+ boundary +:+ CRLF in
    let body := body +:+ "Content-Disposition: form-data; name=" +:+ quote +:+ "file"
                  +:+ quote +:+ "; filename=" +:+ quote +:+ "image.jpg" +:+ quote +:+ CRLF in
    let body := body +:+ "Content-Type: image/jpeg" +:+ CRLF +:+ CRLF in
    let body := body +:+ imageData in
    let body := body +:+ CRLF in
    let body := body +:+ "--" +:+ boundary +:+ CRLF in
    let body := body +:+ "Content-Disposition: form-data; name=" +:+ quote +:+ "image_type"
                  +:+ quote +:+ CRLF +:+ CRLF in
    let body := body +:+ imageType in
    let body := body +:+ CRLF in
    let body := body +:+ "--" +:+ boundary +:+ "--" +:+ CRLF in
    let request := set_httpBody (RawData body) request in
    '(data, response) ← URLSession_shared_data request;
    statusCode ← guard_let (as_HTTPURLResponse response) invalidResponse;
    if bool_decide (statusCode = 200%Z) then
      uploadResponse ← guard_let (JSONDecoder_decode (T := gmap string string) data)
                         DecodingError;
      mret (default "" (uploadResponse !! "url"))
    else
      throw (serverError statusCode)
  end.

(** *** The meal analysis view (MealAnalysisView.swift)

    Its state without the flags that only present sheets. *)

Context {UIImage : Type}.

Record MealAnalysisView := {
  selectedImage : option UIImage;
  userInput : string;
  corrections : string;
  mealResponse : option MealResponse;
  isAnalyzing : bool;
  view_errorMessage : option string
}.

Definition saveMeal (mealType : string) (view : MealAnalysisView)
    : World number → MealAnalysisView * World number := λ w,
  match mealResponse view with
  | None => (view, w)
  | Some mealResponse =>
    let foodLogItems :=
      (λ food, {| name := food_name food;
                  calories := Double_init (food_calories food);
                  proteinG := food_proteinG food;
                  carbsG := food_carbsG food;
                  fatG := food_fatG food;
                  micronutrients := None |}) <$> foods mealResponse in
    match saveFoodLog mealType foodLogItems (Double_init (totalCalories mealResponse)) w with
    | (Return _, w') =>
        ({| selectedImage := None; userInput := ""; corrections := "";
            mealResponse := None; isAnalyzing := isAnalyzing view;
            view_errorMessage := view_errorMessage view |}, w')
    | (Throw error, w') =>
        ({| selectedImage := selectedImage view; userInput := userInput view;
            corrections := corrections view; mealResponse := Some mealResponse;
            isAnalyzing := isAnalyzing view;
            view_errorMessage :=
              Some ("Failed to save meal: " +:+ localizedDescription error) |}, w')
    | (Trap, w') => (view, w')
    end
  end.

(** *** Properties of the generic request handler *)

Ltac run :=
  repeat (progress (cbv beta delta
    [mbind mret Async_bind Async_ret throw do_catch read assign guard_let
     URLSession_shared_data JSONEncoder_encode] in *; cbn [self wire fst snd] in * )).

(** The request [performRequest] hands to the platform. *)
Definition request_for (u method : string) (token : option string)
    (body : option (Data number)) : Request :=
  let request := URLRequest_init u in
  let request := set_httpMethod method request in
  let request := setValue "application/json" "Content-Type" request in
  let request := match token with
                 | Some token => setValue ("Bearer " +:+ token) "Authorization" request
                 | None => request
                 end in
  match body with
  | Some encoded => set_httpBody encoded request
  | None => request
  end.

(** What [performRequest] makes of an answer of the platform. *)
Definition outcome {U} `{Codable U}
    (answer : Error + (Data number * URLResponse)) : Result U :=
  match answer with
  | inl e => Throw e
  | inr (data, OtherURLResponse) => Throw invalidResponse
  | inr (data, HTTPURLResponse statusCode) =>
      if bool_decide (statusCode = 200%Z ∨ statusCode = 201%Z) then
        match JSONDecoder_decode data with
        | Some decoded => Return decoded
        | None => Throw DecodingError
        end
      else
        match JSONDecoder_decode (T := APIError) data with
        | Some errorResponse => Throw (apiError (detail errorResponse))
        | None => Throw (serverError statusCode)
        end
  end.

Lemma performRequest_sent {T U} `{Codable T} `{Codable U}
    (endpoint method : string) (body : option T) (requiresAuth : bool)
    (w : World number) (u : string) :
  URL_init (baseURL +:+ endpoint) = Some u →
  (requiresAuth = true → is_Some (authToken (self w))) →
  (∀ b, body = Some b → is_Some (toJSON b)) →
  let request :=
    request_for u method (if requiresAuth then authToken (self w) else None)
      (JSONData <$> (body ≫= toJSON)) in
  performRequest (U := U) endpoint method body requiresAuth w =
    (outcome (URLSession_data (wire w) request),
     {| self := self w; wire := wire w ++ [request] |}).
Proof.
  intros Hu Htoken Hbody request. subst request.
  unfold performRequest. rewrite Hu.
  assert (Hb : body = None ∨ ∃ b j, body = Some b ∧ toJSON b = Some j).
  { destruct body as [b|]; [right|by left].
    destruct (Hbody b eq_refl) as [j Hj]. eauto. }
  destruct requiresAuth.
  - destruct (Htoken eq_refl) as [t Ht].
    destruct Hb as [->|(b & j & -> & Hj)]; run; rewrite Ht; run; simpl.
    + unfold request_for; simpl.
      destruct (URLSession_data _ _) as [e|[data [statusCode|]]]; simpl; try done.
      case_bool_decide; simpl; by destruct (JSONDecoder_decode data).
    + rewrite Hj. run. unfold request_for; simpl.
      destruct (URLSession_data _ _) as [e|[data [statusCode|]]]; simpl; try done.
      case_bool_decide; simpl; by destruct (JSONDecoder_decode data).
  - destruct Hb as [->|(b & j & -> & Hj)]; run; simpl.
    + unfold request_for; simpl.
      destruct (URLSession_data _ _) as [e|[data [statusCode|]]]; simpl; try done.
      case_bool_decide; simpl; by destruct (JSONDecoder_decode data).
    + rewrite Hj. run. unfold request_for; simpl.
      destruct (URLSession_data _ _) as [e|[data [statusCode|]]]; simpl; try done.
      case_bool_decide; simpl; by destruct (JSONDecoder_decode data).
Qed.


(** Without a token an auth-required call stops before anything is
    sent. The URL guard comes first, so an endpoint that does not make
    a URL is reported as such. *)
Lemma performRequest_unauthenticated {T U} `{Codable T} `{Codable U}
    (endpoint method : string) (body : option T) (w : World number) :
  authToken (self w) = None →
  performRequest (U := U) endpoint method body true w =
    (Throw (match URL_init (baseURL +:+ endpoint) with
            | Some _ => notAuthenticated
            | None => invalidURL
            end), w).
Proof.
  intros Hnone. unfold performRequest.
  destruct (URL_init _); run; [|done]. by rewrite Hnone.
Qed.

(** [performRequest] reads the manager and never writes it; it puts at
    most one request on the wire. *)
Lemma performRequest_frame {T U} `{Codable T} `{Codable U}
    (endpoint method : string) (body : option T) (requiresAuth : bool) (w : World number) :
  let w' := (performRequest (U := U) endpoint method body requiresAuth w).2 in
  self w' = self w ∧ ∃ sent, wire w' = wire w ++ sent ∧ (length sent ≤ 1)%nat.
Proof.
  assert (Hnothing : ∀ l : list Request, ∃ sent, l = l ++ sent ∧ (length sent ≤ 1)%nat).
  { intros l. exists []. rewrite app_nil_r. simpl. split; [done|lia]. }
  assert (Hone : ∀ (l : list Request) r, ∃ sent, l ++ [r] = l ++ sent ∧ (length sent ≤ 1)%nat).
  { intros l r. exists [r]. simpl. split; [done|lia]. }
  cbv zeta. unfold performRequest. run.
  destruct (URL_init _); run; [|by split].
  destruct requiresAuth; run.
  - destruct (authToken (self w)); run; [|by split].
    destruct body as [b|]; run.
    + destruct (toJSON b); run; [|by split].
      destruct (URLSession_data _ _) as [e|[data [statusCode|]]]; simpl;
        repeat case_match; simpl; by split.
    + destruct (URLSession_data _ _) as [e|[data [statusCode|]]]; simpl;
        repeat case_match; simpl; by split.
  - destruct body as [b|]; run.
    + destruct (toJSON b); run; [|by split].
      destruct (URLSession_data _ _) as [e|[data [statusCode|]]]; simpl;
        repeat case_match; simpl; by split.
    + destruct (URLSession_data _ _) as [e|[data [statusCode|]]]; simpl;
        repeat case_match; simpl; by split.
Qed.

(** [performRequest] never traps. *)
Lemma performRequest_no_trap {T U} `{Codable T} `{Codable U}
    (endpoint method : string) (body : option T) (requiresAuth : bool) (w : World number) :
  (performRequest (U := U) endpoint method body requiresAuth w).1 ≠ Trap.
Proof.
  unfold performRequest. run.
  destruct (URL_init _); run; [|done].
  destruct requiresAuth; run.
  - destruct (authToken (self w)); run; [|done].
    destruct body as [b|]; run.
    + destruct (toJSON b); run; [|done].
      destruct (URLSession_data _ _) as [e|[data [statusCode|]]]; simpl;
        repeat case_match; simpl; done.
    + destruct (URLSession_data _ _) as [e|[data [statusCode|]]]; simpl;
        repeat case_match; simpl; done.
  - destruct body as [b|]; run.
    + destruct (toJSON b); run; [|done].
      destruct (URLSession_data _ _) as [e|[data [statusCode|]]]; simpl;
        repeat case_match; simpl; done.
    + destruct (URLSession_data _ _) as [e|[data [statusCode|]]]; simpl;
        repeat case_match; simpl; done.
Qed.

(** A body is an error body with detail [X] when it is a JSON object
    whose member [detail] is the string [X]. *)
Definition has_detail (data : Data number) (X : string) : Prop :=
  ∃ members, data = JSONData (JObj members) ∧ members !! "detail" = Some (JStr X).

Lemma decode_APIError (data : Data number) (X : string) :
  JSONDecoder_decode (T := APIError) data = Some {| detail := X |} ↔ has_detail data X.
Proof.
  unfold JSONDecoder_decode, has_detail. split.
  - destruct data as [j|]; simpl; [|done].
    destruct j as [| | | | |members]; simpl; try done.
    destruct (members !! "detail") as [[]|] eqn:Hd; simpl; try done.
    intros [= ->]. eauto.
  - intros (members & -> & Hd). simpl. by rewrite Hd.
Qed.

Lemma decode_APIError_None (data : Data number) :
  JSONDecoder_decode (T := APIError) data = None ↔ ¬ ∃ X, has_detail data X.
Proof.
  split.
  - intros Hnone [X HX]. apply decode_APIError in HX. congruence.
  - intros Hno. destruct (JSONDecoder_decode data) as [[X]|] eqn:Hd; [|done].
    destruct Hno. exists X. by apply decode_APIError.
Qed.

(** The two outcomes of a status other than 200 and 201. *)
Lemma outcome_failure {U} `{Codable U} (data : Data number) (statusCode : Z) :
  ¬ (statusCode = 200%Z ∨ statusCode = 201%Z) →
  (∀ X, has_detail data X →
     outcome (U := U) (inr (data, HTTPURLResponse statusCode)) = Throw (apiError X)) ∧
  ((¬ ∃ X, has_detail data X) →
     outcome (U := U) (inr (data, HTTPURLResponse statusCode))
       = Throw (serverError statusCode)).
Proof.
  intros Hstatus. unfold outcome. rewrite bool_decide_eq_false_2 by done. split.
  - intros X HX. apply decode_APIError in HX. by rewrite HX.
  - intros Hno. apply decode_APIError_None in Hno. by rewrite Hno.
Qed.

(** A call returns exactly on 200 or 201 with a body of the expected
    shape, and then it returns the decoded body. *)
Lemma outcome_success {U} `{Codable U} (data : Data number) (statusCode : Z) (decoded : U) :
  outcome (inr (data, HTTPURLResponse statusCode)) = Return decoded ↔
  (statusCode = 200%Z ∨ statusCode = 201%Z) ∧ JSONDecoder_decode data = Some decoded.
Proof.
  unfold outcome. case_bool_decide as Hstatus.
  - destruct (JSONDecoder_decode data) as [d|]; split.
    + intros [= ->]. done.
    + intros [_ [= ->]]. done.
    + done.
    + intros [_ [=]].
  - split.
    + by destruct (JSONDecoder_decode (T := APIError) data).
    + intros [? _]. done.
Qed.

(** The message of a server error determines the status code. *)
Lemma serverError_description_inj (code code' : Z) :
  errorDescription (serverError code) = errorDescription (serverError code') → code = code'.
Proof.
  simpl. intros Heq. apply (inj pretty). by simplify_eq.
Qed.

(** *** Properties of the session *)

Definition logged_out (nm : NetworkManager) : NetworkManager :=
  set_currentUser None (set_isAuthenticated false (set_authToken None nm)).

Lemma logout_run (w : World number) :
  logout w = (Return (), {| self := logged_out (self w); wire := wire w |}).
Proof. reflexivity. Qed.

(** [getCurrentUser] in terms of its one call. *)
Lemma getCurrentUser_run (w : World number) :
  getCurrentUser w =
    match performRequest (T := gmap string value) (U := User) "/auth/me" "GET" None true w with
    | (Return user, w') =>
        (Return (), {| self := set_currentUser (Some user) (self w'); wire := wire w' |})
    | (Throw _, w') => (Return (), {| self := logged_out (self w'); wire := wire w' |})
    | (Trap, w') => (Trap, w')
    end.
Proof.
  unfold getCurrentUser. run.
  by destruct (performRequest "/auth/me" "GET" None true w) as [[user|e|] w'].
Qed.

(** C6. Whenever the call of [getCurrentUser] to GET /auth/me throws,
    whatever the error, [getCurrentUser] itself returns normally and has
    logged out: the stored token is cleared, [isAuthenticated] is false
    and [currentUser] is nil. *)
Theorem getCurrentUser_failure_logs_out (w w1 : World number) (error : Error) :
  performRequest (T := gmap string value) (U := User) "/auth/me" "GET" None true w
    = (Throw error, w1) →
  (getCurrentUser w).1 = Return () ∧
  authToken (self (getCurrentUser w).2) = None ∧
  isAuthenticated (self (getCurrentUser w).2) = false ∧
  currentUser (self (getCurrentUser w).2) = None.
Proof.
  intros Hcall. rewrite getCurrentUser_run, Hcall. done.
Qed.

(** The request of [login] and the request of [getCurrentUser]. *)
Definition login_request (u username password : string) : Request :=
  request_for u "POST" None
    (Some (JSONData (JObj (<[ "username" := JStr username ]>
                             {[ "password" := JStr password ]})))).

Definition me_request (u token : string) : Request :=
  request_for u "GET" (Some token) None.

(** A body is a token body when it is a JSON object whose members
    [access_token] and [token_type] are strings. *)
Definition has_token (data : Data number) (access type : string) : Prop :=
  ∃ members, data = JSONData (JObj members) ∧
    members !! "access_token" = Some (JStr access) ∧
    members !! "token_type" = Some (JStr type).

Lemma decode_Token (data : Data number) (access type : string) :
  has_token data access type →
  JSONDecoder_decode data = Some {| accessToken := access; tokenType := type |}.
Proof.
  intros (members & -> & Ha & Ht). unfold JSONDecoder_decode. simpl.
  by rewrite Ha, Ht.
Qed.

(** [getCurrentUser] with a token in store and a URL for /auth/me. *)
Lemma getCurrentUser_sent (w : World number) (u token : string) :
  URL_init (baseURL +:+ "/auth/me") = Some u →
  authToken (self w) = Some token →
  getCurrentUser w =
    (Return (),
     {| self := match outcome (U := User) (URLSession_data (wire w) (me_request u token)) with
                | Return user => set_currentUser (Some user) (self w)
                | _ => logged_out (self w)
                end;
        wire := wire w ++ [me_request u token] |}).
Proof.
  intros Hu Htoken. rewrite getCurrentUser_run.
  pose proof (performRequest_no_trap (T := gmap string value) (U := User)
                "/auth/me" "GET" None true w) as Hno.
  rewrite (performRequest_sent (T := gmap string value) (U := User)
             "/auth/me" "GET" None true w u Hu) in Hno |- *; [| | done | | done].
  - rewrite Htoken in Hno |- *. simpl in Hno |- *. fold (me_request u token) in Hno |- *.
    by destruct (outcome _).
  - intros _. by rewrite Htoken.
  - intros _. by rewrite Htoken.
Qed.

(** [login] whose POST /auth/login is answered 200 or 201 with a token
    body: both requests it sends, and the state it leaves. *)
Lemma login_run (w : World number) (username password access type u_login u_me : string)
    (data : Data number) (statusCode : Z) :
  URL_init (baseURL +:+ "/auth/login") = Some u_login →
  URL_init (baseURL +:+ "/auth/me") = Some u_me →
  URLSession_data (wire w) (login_request u_login username password)
    = inr (data, HTTPURLResponse statusCode) →
  statusCode = 200%Z ∨ statusCode = 201%Z →
  has_token data access type →
  login username password w =
    (Return (),
     {| self :=
          match outcome (U := User)
                  (URLSession_data (wire w ++ [login_request u_login username password])
                     (me_request u_me access)) with
          | Return user =>
              {| isAuthenticated := true; currentUser := Some user; isLoading := false;
                 errorMessage := None; authToken := Some access |}
          | _ =>
              {| isAuthenticated := false; currentUser := None; isLoading := false;
                 errorMessage := None; authToken := None |}
          end;
        wire := wire w ++ [login_request u_login username password; me_request u_me access] |}).
Proof.
  intros Hlogin Hme Hanswer Hstatus Htoken.
  unfold login. run.
  rewrite (performRequest_sent (U := Token) "/auth/login" "POST"
             (Some {| login_username := username; login_password := password |}) false
             _ u_login Hlogin); [|done|by eexists].
  change (request_for u_login "POST" _ _) with (login_request u_login username password).
  cbn [self wire]. rewrite Hanswer.
  unfold outcome at 1. rewrite bool_decide_eq_true_2 by done.
  rewrite (decode_Token _ _ _ Htoken). run.
  rewrite (getCurrentUser_sent _ u_me access Hme) by done. cbn [self wire].
  rewrite <- app_assoc. simpl.
  by destruct (outcome _).
Qed.

Lemma request_for_Authorization (u method token : string) (body : option (Data number)) :
  allHTTPHeaderFields (request_for u method (Some token) body) !! "Authorization"
    = Some ("Bearer " +:+ token).
Proof.
  unfold request_for. destruct body; simpl; by rewrite lookup_insert_eq.
Qed.

(** C7, as the client has it. When POST /auth/login with body
    {username: alice, password: pw} is answered 200 or 201 with
    {access_token: t1, token_type: bearer}, [login] goes on to GET
    /auth/me with the header Authorization: Bearer t1. When that second
    call returns a user, [login] leaves the stored token t1 and
    [isAuthenticated] true; when it does not, [login] leaves no token
    and [isAuthenticated] false. *)
Theorem login_stores_token (w : World number) (u_login u_me : string) (statusCode : Z) :
  URL_init (baseURL +:+ "/auth/login") = Some u_login →
  URL_init (baseURL +:+ "/auth/me") = Some u_me →
  URLSession_data (wire w) (login_request u_login "alice" "pw")
    = inr (JSONData (JObj (<[ "access_token" := JStr "t1" ]>
                             {[ "token_type" := JStr "bearer" ]})),
           HTTPURLResponse statusCode) →
  statusCode = 200%Z ∨ statusCode = 201%Z →
  let w' := (login "alice" "pw" w).2 in
  let answer := URLSession_data (wire w ++ [login_request u_login "alice" "pw"])
                  (me_request u_me "t1") in
  wire w' = wire w ++ [login_request u_login "alice" "pw"; me_request u_me "t1"] ∧
  allHTTPHeaderFields (me_request u_me "t1") !! "Authorization" = Some "Bearer t1" ∧
  (∀ user, outcome answer = Return user →
     authToken (self w') = Some "t1" ∧ isAuthenticated (self w') = true ∧
     currentUser (self w') = Some user) ∧
  ((∀ user, outcome (U := User) answer ≠ Return user) →
     authToken (self w') = None ∧ isAuthenticated (self w') = false).
Proof.
  intros Hlogin Hme Hanswer Hstatus w' answer. subst w'.
  rewrite (login_run w "alice" "pw" "t1" "bearer" u_login u_me _ statusCode
             Hlogin Hme Hanswer Hstatus).
  2:{ eexists. split; [done|]. split; by simplify_map_eq. }
  cbn [snd self wire]. fold answer.
  split; [done|]. split; [apply request_for_Authorization|]. split.
  - intros user ->. done.
  - intros Hfail. destruct (outcome answer) as [user| |]; [|done..].
    by destruct (Hfail user).
Qed.

(** C4. Let POST /auth/login be answered 200 or 201 with a token body
    whose access token is [t]. Then the auth-required call that [login]
    makes next carries Authorization: Bearer [t], and [t] is the stored
    token when [login] returns after that call succeeded. In every state
    that holds [t], an auth-required call sends one request, with the
    header Authorization: Bearer [t]; after [logout] the same call
    throws notAuthenticated and sends nothing. *)
Theorem credential_round_trip (w : World number)
    (username password t type u_login u_me : string) (data : Data number) (statusCode : Z) :
  URL_init (baseURL +:+ "/auth/login") = Some u_login →
  URL_init (baseURL +:+ "/auth/me") = Some u_me →
  URLSession_data (wire w) (login_request u_login username password)
    = inr (data, HTTPURLResponse statusCode) →
  statusCode = 200%Z ∨ statusCode = 201%Z →
  has_token data t type →
  (∃ sent,
     wire (login username password w).2
       = wire w ++ [login_request u_login username password; sent] ∧
     url sent = u_me ∧
     allHTTPHeaderFields sent !! "Authorization" = Some ("Bearer " +:+ t)) ∧
  (∀ user : User,
     outcome (URLSession_data (wire w ++ [login_request u_login username password])
                (me_request u_me t)) = Return user →
     authToken (self (login username password w).2) = Some t) ∧
  ∀ (T U : Type) (CT : Codable T) (CU : Codable U) (w2 : World number)
    (endpoint method : string) (body : option T) (u : string),
    authToken (self w2) = Some t →
    URL_init (baseURL +:+ endpoint) = Some u →
    (∀ b, body = Some b → is_Some (toJSON b)) →
    (∃ sent,
       (performRequest (U := U) endpoint method body true w2).2
         = {| self := self w2; wire := wire w2 ++ [sent] |} ∧
       allHTTPHeaderFields sent !! "Authorization" = Some ("Bearer " +:+ t)) ∧
    performRequest (U := U) endpoint method body true (logout w2).2
      = (Throw notAuthenticated, (logout w2).2).
Proof.
  intros Hlogin Hme Hanswer Hstatus Htoken.
  rewrite (login_run w username password t type u_login u_me data statusCode
             Hlogin Hme Hanswer Hstatus Htoken).
  cbn [snd self wire]. split; [|split].
  - exists (me_request u_me t). split; [done|]. split.
    + reflexivity.
    + apply request_for_Authorization.
  - by intros user ->.
  - intros T U CT CU w2 endpoint method body u Hstored Hu Hbody. split.
    + rewrite (performRequest_sent endpoint method body true w2 u Hu);
        [|by rewrite Hstored|done].
      cbn [snd]. eexists. split; [done|].
      rewrite Hstored. apply request_for_Authorization.
    + rewrite performRequest_unauthenticated by done. by rewrite Hu.
Qed.

(** *** The authentication invariant *)












(** *** Properties of the image upload *)

(** What [uploadImage] makes of an answer of the platform. *)
Definition upload_outcome (answer : Error + (Data number * URLResponse)) : Result string :=
  match answer with
  | inl e => Throw e
  | inr (data, OtherURLResponse) => Throw invalidResponse
  | inr (data, HTTPURLResponse statusCode) =>
      if bool_decide (statusCode = 200%Z) then
        match JSONDecoder_decode (T := gmap string string) data with
        | Some uploadResponse => Return (default "" (uploadResponse !! "url"))
        | None => Throw DecodingError
        end
      else Throw (serverError statusCode)
  end.

Lemma uploadImage_sent (w : World number) (token u imageData imageType : string) :
  authToken (self w) = Some token →
  URL_init (baseURL +:+ "/upload-user-image") = Some u →
  ∃ request,
    httpMethod request = "POST" ∧
    allHTTPHeaderFields request !! "Authorization" = Some ("Bearer " +:+ token) ∧
    uploadImage imageData imageType w =
      (upload_outcome (URLSession_data (wire w) request),
       {| self := self w; wire := wire w ++ [request] |}).
Proof.
  intros Htoken Hu. unfold uploadImage. run. rewrite Htoken, Hu. run.
  match goal with |- context [URLSession_data _ ?r] => exists r end.
  split; [reflexivity|]. split; [simpl; by simplify_map_eq|].
  unfold upload_outcome.
  destruct (URLSession_data _ _) as [e|[data [statusCode|]]]; simpl; try done.
  case_bool_decide; simpl; [|done].
  by destruct (JSONDecoder_decode data).
Qed.

Lemma decode_Strings (members : gmap string value) :
  map_Forall (λ _ v, is_Some (as_string v)) members →
  JSONDecoder_decode (T := gmap string string) (JSONData (JObj members))
    = Some (omap as_string members).
Proof.
  intros Hall. unfold JSONDecoder_decode. simpl. by rewrite decide_True.
Qed.

(** C10. With a token in store, [uploadImage] sends one request. When
    it is answered 200 with a JSON object of strings that has no [url]
    member, [uploadImage] returns the empty string. It throws exactly
    when the status is not 200 or the body does not decode as an object
    of strings. *)
Theorem uploadImage_without_url (w : World number) (token u imageData imageType : string) :
  authToken (self w) = Some token →
  URL_init (baseURL +:+ "/upload-user-image") = Some u →
  ∃ request,
    wire (uploadImage imageData imageType w).2 = wire w ++ [request] ∧
    ∀ data statusCode,
      URLSession_data (wire w) request = inr (data, HTTPURLResponse statusCode) →
      (statusCode = 200%Z →
       ∀ members, data = JSONData (JObj members) →
         map_Forall (λ _ v, is_Some (as_string v)) members →
         members !! "url" = None →
         (uploadImage imageData imageType w).1 = Return "") ∧
      ((∃ error, (uploadImage imageData imageType w).1 = Throw error) ↔
       statusCode ≠ 200%Z ∨ JSONDecoder_decode (T := gmap string string) data = None).
Proof.
  intros Htoken Hu.
  destruct (uploadImage_sent w token u imageData imageType Htoken Hu)
    as (request & _ & _ & Hrun).
  exists request. rewrite Hrun. cbn [fst snd wire]. split; [done|].
  intros data statusCode ->. unfold upload_outcome. split.
  - intros -> members -> Hall Hurl.
    rewrite bool_decide_eq_true_2 by done.
    rewrite decode_Strings by done. by rewrite lookup_omap, Hurl.
  - case_bool_decide as Hstatus.
    + destruct (JSONDecoder_decode data) as [uploadResponse|]; split.
      * by intros [error ?].
      * by intros [?|?].
      * by right.
      * by eexists.
    + split; [by left|by eexists].
Qed.

(** [uploadImage] returns exactly on 200 with an object of strings. *)
Lemma upload_outcome_success (data : Data number) (statusCode : Z) (location : string) :
  upload_outcome (inr (data, HTTPURLResponse statusCode)) = Return location ↔
  statusCode = 200%Z ∧
  ∃ uploadResponse,
    JSONDecoder_decode (T := gmap string string) data = Some uploadResponse ∧
    location = default "" (uploadResponse !! "url").
Proof.
  unfold upload_outcome. case_bool_decide as Hstatus.
  - destruct (JSONDecoder_decode data) as [uploadResponse|]; split.
    + intros [= <-]. eauto.
    + by intros [_ (? & [= <-] & ->)].
    + done.
    + by intros [_ (? & [=] & _)].
  - split; [done|]. by intros [? _].
Qed.

(** *** Properties of saving a food log *)

Definition saveFoodLog_body (user : User) (mealTime : string) (foods : list FoodLogItem)
    (totalCalories : Double) : SaveFoodLogRequest :=
  {| request_userId := username user; request_dateString := today;
     request_mealTime := mealTime; request_foods := foods;
     request_totalCalories := totalCalories |}.

Lemma saveFoodLog_sent (w : World number) (user : User) (token u mealTime : string)
    (foods : list FoodLogItem) (totalCalories : Double) :
  currentUser (self w) = Some user →
  authToken (self w) = Some token →
  URL_init (baseURL +:+ "/food-logs") = Some u →
  is_Some (toJSON (saveFoodLog_body user mealTime foods totalCalories)) →
  let request :=
    request_for u "POST" (Some token)
      (JSONData <$> toJSON (saveFoodLog_body user mealTime foods totalCalories)) in
  saveFoodLog mealTime foods totalCalories w =
    (outcome (URLSession_data (wire w) request),
     {| self := self w; wire := wire w ++ [request] |}).
Proof.
  intros Huser Htoken Hu Hbody request. subst request.
  unfold saveFoodLog. run. rewrite Huser. simpl. run.
  rewrite (performRequest_sent "/food-logs" "POST" _ true w u Hu).
  - by rewrite Htoken.
  - intros _. by rewrite Htoken.
  - by intros b [= <-].
Qed.

Definition to_item (food : Food) : FoodLogItem :=
  {| name := food_name food; calories := Double_init (food_calories food);
     proteinG := food_proteinG food; carbsG := food_carbsG food; fatG := food_fatG food;
     micronutrients := None |}.

(** When [saveFoodLog] throws, the view keeps the analysed meal and its
    form and shows the prefixed description of the error. *)
Lemma saveMeal_failed (w w' : World number) (view : MealAnalysisView)
    (meal : MealResponse) (mealType : string) (error : Error) :
  mealResponse view = Some meal →
  saveFoodLog mealType (to_item <$> foods meal) (Double_init (totalCalories meal)) w
    = (Throw error, w') →
  saveMeal mealType view w =
    ({| selectedImage := selectedImage view; userInput := userInput view;
        corrections := corrections view; mealResponse := mealResponse view;
        isAnalyzing := isAnalyzing view;
        view_errorMessage :=
          Some ("Failed to save meal: " +:+ localizedDescription error) |}, w').
Proof.
  intros Hmeal Hsave. unfold saveMeal. rewrite Hmeal.
  fold to_item. by rewrite Hsave.
Qed.

(** *** Further properties of the request handler *)

(** What [performRequest] puts on the wire: nothing, or the one request
    it built from a URL, the token when required, and the encoded body. *)
Lemma performRequest_wire {T U} `{Codable T} `{Codable U}
    (endpoint method : string) (body : option T) (requiresAuth : bool) (w : World number) :
  let w' := (performRequest (U := U) endpoint method body requiresAuth w).2 in
  wire w' = wire w ∨
  ∃ u encoded,
    URL_init (baseURL +:+ endpoint) = Some u ∧
    (requiresAuth = true → is_Some (authToken (self w))) ∧
    wire w' = wire w ++ [request_for u method
                           (if requiresAuth then authToken (self w) else None) encoded].
Proof.
  cbv zeta. unfold performRequest. run.
  destruct (URL_init _) as [u|]; run; [|by left].
  destruct requiresAuth; run.
  - destruct (authToken (self w)) as [token|] eqn:Htoken; run; [|by left].
    destruct body as [b|]; run.
    + destruct (toJSON b) as [j|]; run; [|by left].
      right. exists u, (Some (JSONData j)). split; [done|]. split; [by eauto|].
      destruct (URLSession_data _ _) as [e|[data [statusCode|]]]; simpl;
        repeat case_match; simpl; done.
    + right. exists u, None. split; [done|]. split; [by eauto|].
      destruct (URLSession_data _ _) as [e|[data [statusCode|]]]; simpl;
        repeat case_match; simpl; done.
  - destruct body as [b|]; run.
    + destruct (toJSON b) as [j|]; run; [|by left].
      right. exists u, (Some (JSONData j)). split; [done|]. split; [done|].
      destruct (URLSession_data _ _) as [e|[data [statusCode|]]]; simpl;
        repeat case_match; simpl; done.
    + right. exists u, None. split; [done|]. split; [done|].
      destruct (URLSession_data _ _) as [e|[data [statusCode|]]]; simpl;
        repeat case_match; simpl; done.
Qed.

Lemma request_for_fields (u method : string) (token : option string)
    (body : option (Data number)) :
  url (request_for u method token body) = u ∧
  httpMethod (request_for u method token body) = method ∧
  httpBody (request_for u method token body) = body ∧
  allHTTPHeaderFields (request_for u method token body) !! "Content-Type"
    = Some "application/json" ∧
  allHTTPHeaderFields (request_for u method token body) !! "Authorization"
    = (λ t, "Bearer " +:+ t) <$> token.
Proof.
  unfold request_for.
  destruct token as [t|], body as [b|]; simpl; repeat split; by simplify_map_eq.
Qed.

(** X1. A call that does not require auth never carries the stored
    token: the request it sends has no Authorization header, whatever
    the session, and it is a JSON request with the given method to the
    URL of the endpoint. *)
Theorem public_call_carries_no_token {T U} `{Codable T} `{Codable U}
    (endpoint method : string) (body : option T) (w : World number) (request : Request) :
  wire (performRequest (U := U) endpoint method body false w).2 = wire w ++ [request] →
  allHTTPHeaderFields request !! "Authorization" = None ∧
  allHTTPHeaderFields request !! "Content-Type" = Some "application/json" ∧
  httpMethod request = method ∧
  URL_init (baseURL +:+ endpoint) = Some (url request).
Proof.
  intros Hsent.
  destruct (performRequest_wire (U := U) endpoint method body false w)
    as [Hnone|(u & encoded & Hu & _ & Hone)].
  - rewrite Hnone in Hsent. apply (f_equal length) in Hsent.
    rewrite length_app in Hsent. simpl in Hsent. lia.
  - rewrite Hone in Hsent. apply app_inv_head in Hsent. injection Hsent as <-.
    destruct (request_for_fields u method None encoded) as (-> & -> & _ & -> & ->).
    done.
Qed.

(** [performRequest] looks at the manager only for the token. *)
Lemma performRequest_token_only {T U} `{Codable T} `{Codable U}
    (endpoint method : string) (body : option T) (requiresAuth : bool)
    (nm nm' : NetworkManager) (sent : list Request) :
  authToken nm = authToken nm' →
  performRequest (U := U) endpoint method body requiresAuth {| self := nm'; wire := sent |}
    = ((performRequest (U := U) endpoint method body requiresAuth
          {| self := nm; wire := sent |}).1,
       {| self := nm';
          wire := wire (performRequest (U := U) endpoint method body requiresAuth
                          {| self := nm; wire := sent |}).2 |}).
Proof.
  intros Htoken. unfold performRequest. run.
  destruct (URL_init _) as [u|]; run; [|done].
  destruct requiresAuth; run.
  - rewrite <- Htoken. destruct (authToken nm) as [token|]; run; [|done].
    destruct body as [b|]; run.
    + destruct (toJSON b) as [j|]; run; [|done].
      destruct (URLSession_data _ _) as [e|[data [statusCode|]]]; simpl;
        repeat case_match; simpl; done.
    + destruct (URLSession_data _ _) as [e|[data [statusCode|]]]; simpl;
        repeat case_match; simpl; done.
  - destruct body as [b|]; run.
    + destruct (toJSON b) as [j|]; run; [|done].
      destruct (URLSession_data _ _) as [e|[data [statusCode|]]]; simpl;
        repeat case_match; simpl; done.
    + destruct (URLSession_data _ _) as [e|[data [statusCode|]]]; simpl;
        repeat case_match; simpl; done.
Qed.

(** *** Further properties of the session *)

Lemma getCurrentUser_returns (w : World number) : (getCurrentUser w).1 = Return ().
Proof.
  rewrite getCurrentUser_run.
  pose proof (performRequest_no_trap (T := gmap string value) (U := User)
                "/auth/me" "GET" None true w) as Hno.
  by destruct (performRequest "/auth/me" "GET" None true w) as [[user|e|] w'].
Qed.

Lemma world_eta (w : World number) : {| self := self w; wire := wire w |} = w.
Proof. by destruct w. Qed.

Lemma set_isLoading_false_id (nm : NetworkManager) :
  isLoading nm = false → set_isLoading false nm = nm.
Proof. destruct nm. simpl. by intros ->. Qed.

(** [login] in terms of its first call. *)
Lemma login_by_cases (username password : string) (w : World number) :
  login username password w =
    match performRequest (U := Token) "/auth/login" "POST"
            (Some {| login_username := username; login_password := password |}) false w with
    | (Return token, w1) =>
        (Return (),
         {| self := set_isLoading false
              (self (getCurrentUser
                       {| self := set_isAuthenticated true
                            (set_authToken (Some (accessToken token))
                               (set_errorMessage None (set_isLoading true (self w))));
                          wire := wire w1 |}).2);
            wire := wire (getCurrentUser
                       {| self := set_isAuthenticated true
                            (set_authToken (Some (accessToken token))
                               (set_errorMessage None (set_isLoading true (self w))));
                          wire := wire w1 |}).2 |})
    | (Throw error, w1) =>
        (Return (),
         {| self := {| isAuthenticated := isAuthenticated (self w);
                       currentUser := currentUser (self w);
                       isLoading := false;
                       errorMessage := Some (localizedDescription error);
                       authToken := authToken (self w) |};
            wire := wire w1 |})
    | (Trap, w1) => (Trap, {| self := set_errorMessage None (set_isLoading true (self w));
                             wire := wire w1 |})
    end.
Proof.
  unfold login. run.
  rewrite (performRequest_token_only (U := Token) "/auth/login" "POST" _ false
             (self w) (set_errorMessage None (set_isLoading true (self w))) (wire w))
    by done.
  rewrite world_eta.
  destruct (performRequest "/auth/login" "POST" _ false w) as [[token|error|] w1]; simpl.
  - match goal with |- context [getCurrentUser ?w0] =>
      pose proof (getCurrentUser_returns w0) as Hme;
      destruct (getCurrentUser w0) as [r w2] end.
    simpl in Hme. by subst r.
  - done.
  - done.
Qed.

Lemma login_finishes (username password : string) (w : World number) :
  (login username password w).1 = Return () ∧
  isLoading (self (login username password w).2) = false.
Proof.
  rewrite login_by_cases.
  pose proof (performRequest_no_trap (U := Token) "/auth/login" "POST"
                (Some {| login_username := username; login_password := password |})
                false w) as Hno.
  by destruct (performRequest "/auth/login" "POST" _ false w) as [[token|error|] w1].
Qed.

(** X2. A failed sign-in leaves the session as it was: when the call
    to POST /auth/login throws, [login] returns normally, keeps the
    stored token, [isAuthenticated] and [currentUser], records the
    description of the error, and sends nothing after that call (no
    GET /auth/me). *)
Theorem login_failure_keeps_session (username password : string) (w w1 : World number)
    (error : Error) :
  performRequest (U := Token) "/auth/login" "POST"
    (Some {| login_username := username; login_password := password |}) false w
    = (Throw error, w1) →
  login username password w =
    (Return (),
     {| self := {| isAuthenticated := isAuthenticated (self w);
                   currentUser := currentUser (self w);
                   isLoading := false;
                   errorMessage := Some (localizedDescription error);
                   authToken := authToken (self w) |};
        wire := wire w1 |}) ∧
  ∃ sent, wire w1 = wire w ++ sent ∧ (length sent ≤ 1)%nat.
Proof.
  intros Hcall. rewrite login_by_cases, Hcall. split; [done|].
  pose proof (performRequest_frame (U := Token) "/auth/login" "POST"
                (Some {| login_username := username; login_password := password |})
                false w) as [_ Hsent].
  by rewrite Hcall in Hsent.
Qed.

Lemma login_restart (username password : string) (nm : NetworkManager)
    (sent : list Request) :
  login username password
    {| self := set_errorMessage None (set_isLoading true nm); wire := sent |}
  = login username password {| self := nm; wire := sent |}.
Proof. reflexivity. Qed.

(** [register] in terms of its first call. *)
Lemma register_by_cases (username email password : string) (w : World number) :
  register username email password w =
    match performRequest (U := User) "/auth/register" "POST"
            (Some {| create_username := username; create_email := email;
                     create_password := password |}) false w with
    | (Return _, w1) => login username password w1
    | (Throw error, w1) =>
        (Return (),
         {| self := {| isAuthenticated := isAuthenticated (self w);
                       currentUser := currentUser (self w);
                       isLoading := false;
                       errorMessage := Some (localizedDescription error);
                       authToken := authToken (self w) |};
            wire := wire w1 |})
    | (Trap, w1) => (Trap, {| self := set_errorMessage None (set_isLoading true (self w));
                             wire := wire w1 |})
    end.
Proof.
  unfold register. run.
  rewrite (performRequest_token_only (U := User) "/auth/register" "POST" _ false
             (self w) (set_errorMessage None (set_isLoading true (self w))) (wire w))
    by done.
  rewrite world_eta.
  pose proof (performRequest_frame (U := User) "/auth/register" "POST"
                (Some {| create_username := username; create_email := email;
                         create_password := password |}) false w) as [Hself _].
  destruct (performRequest "/auth/register" "POST" _ false w) as [[user|error|] w1];
    simpl in *; [|done..].
  rewrite login_restart. rewrite <- Hself, world_eta.
  destruct (login_finishes username password w1) as [Hreturn Hloading].
  destruct (login username password w1) as [r w2]. simpl in *. subst r.
  rewrite set_isLoading_false_id by done. by rewrite world_eta.
Qed.

(** X3. [login] and [register] always come back: they return normally
    whatever the platform answers, and they leave [isLoading] false. *)
Theorem login_and_register_finish (username email password : string) (w : World number) :
  (login username password w).1 = Return () ∧
  isLoading (self (login username password w).2) = false ∧
  (register username email password w).1 = Return () ∧
  isLoading (self (register username email password w).2) = false.
Proof.
  destruct (login_finishes username password w) as [Hreturn Hloading].
  split; [done|]. split; [done|].
  rewrite register_by_cases.
  pose proof (performRequest_no_trap (U := User) "/auth/register" "POST"
                (Some {| create_username := username; create_email := email;
                         create_password := password |}) false w) as Hno.
  destruct (performRequest "/auth/register" "POST" _ false w) as [[user|error|] w1];
    simpl in *; [|done..].
  apply login_finishes.
Qed.

(** X4. [register] is the registration call followed by [login] with
    the same credentials: when POST /auth/register returns a user,
    [register] does from there exactly what [login] does; when it
    throws, no sign-in is attempted, the session is kept and the
    description of the error is recorded. *)
Theorem register_then_login (username email password : string) (w w1 : World number)
    (result : Result User) :
  performRequest (U := User) "/auth/register" "POST"
    (Some {| create_username := username; create_email := email;
             create_password := password |}) false w = (result, w1) →
  match result with
  | Return _ => register username email password w = login username password w1
  | Throw error =>
      register username email password w =
        (Return (),
         {| self := {| isAuthenticated := isAuthenticated (self w);
                       currentUser := currentUser (self w);
                       isLoading := false;
                       errorMessage := Some (localizedDescription error);
                       authToken := authToken (self w) |};
            wire := wire w1 |})
  | Trap => False
  end.
Proof.
  intros Hcall. rewrite register_by_cases, Hcall.
  destruct result as [user|error|]; [done..|].
  pose proof (performRequest_no_trap (U := User) "/auth/register" "POST"
                (Some {| create_username := username; create_email := email;
                         create_password := password |}) false w) as Hno.
  by rewrite Hcall in Hno.
Qed.

(** X5. Signing out is final until the next sign-in: after [logout],
    [getCurrentUser] and [checkAuthStatus] send nothing and leave the
    manager signed out, and a second [logout] changes nothing. *)
Theorem logout_is_final (w : World number) :
  let w' := (logout w).2 in
  (getCurrentUser w').2 = w' ∧ (checkAuthStatus w').2 = w' ∧ (logout w').2 = w'.
Proof.
  cbv zeta. rewrite logout_run. cbn [snd].
  assert (Hme : ∀ sent,
    (getCurrentUser {| self := logged_out (self w); wire := sent |}).2
    = {| self := logged_out (self w); wire := sent |}).
  { intros sent. rewrite getCurrentUser_run.
    rewrite (performRequest_unauthenticated (T := gmap string value) (U := User)
               "/auth/me" "GET" None {| self := logged_out (self w); wire := sent |})
      by done.
    done. }
  split; [apply Hme|]. split; [|done].
  unfold checkAuthStatus. run. simpl. done.
Qed.

(** *** AnyCodable and the stored food logs (Models.swift) *)

(** The value an [AnyCodable] holds after decoding, by its dynamic
    type; [AnyVoid] is [()]. *)
Inductive AnyCodable :=
  | AnyInt (intValue : Z)
  | AnyDouble (doubleValue : Double)
  | AnyString (stringValue : string)
  | AnyBool (boolValue : bool)
  | AnyVoid.

(** How [JSONDecoder] reads a [Double] out of a JSON number, and the
    JSON number [JSONEncoder] writes for a [Double] (none for a value
    that is not finite). *)
Variable number_to_Double : number → option Double.
Variable number_of_Double : Double → option number.

Definition as_Double (j : value) : option Double :=
  match j with
  | JNum n => number_to_Double n
  | _ => None
  end.

(** [AnyCodable.init(from:)]: the first of Int, Double, String, Bool
    that decodes, else [()]. *)
Definition AnyCodable_init_from (j : value) : AnyCodable :=
  match as_Int j with
  | Some intValue => AnyInt intValue
  | None =>
    match as_Double j with
    | Some doubleValue => AnyDouble doubleValue
    | None =>
      match as_string j with
      | Some stringValue => AnyString stringValue
      | None =>
        match as_bool j with
        | Some boolValue => AnyBool boolValue
        | None => AnyVoid
        end
      end
    end
  end.

(** [AnyCodable.encode(to:)]: what it writes into the container, if
    anything; [None] when the encoder throws. *)
Definition AnyCodable_encode (a : AnyCodable) : option (option value) :=
  match a with
  | AnyInt intValue => Some (Some (JNum (number_of_Int intValue)))
  | AnyDouble doubleValue => (λ n, Some (JNum n)) <$> number_of_Double doubleValue
  | AnyString stringValue => Some (Some (JStr stringValue))
  | AnyBool boolValue => Some (Some (JBool boolValue))
  | AnyVoid => Some None
  end.

Record FoodLogResponse := {
  log_logId : string;
  log_mealTime : string;
  log_foods : list (gmap string AnyCodable);
  log_totalCalories : Double;
  log_createdAt : string;
  log_dateString : string
}.

(** [value as? String] and [value as? Double] on what an [AnyCodable]
    holds. *)
Definition as_String (a : AnyCodable) : option string :=
  match a with
  | AnyString stringValue => Some stringValue
  | _ => None
  end.

Definition as_Double_value (a : AnyCodable) : option Double :=
  match a with
  | AnyDouble doubleValue => Some doubleValue
  | _ => None
  end.

(** [convertToFoodLogItems] of NutritionAdviceView.swift *)
Definition convertToFoodLogItems (logs : list FoodLogResponse) : list FoodLogItem :=
  foldl (λ items log,
    foldl (λ items food,
      match food !! "name" ≫= as_String, food !! "calories" ≫= as_Double_value with
      | Some name, Some calories =>
          let protein := default (Double_init 0) (food !! "protein_g" ≫= as_Double_value) in
          let carbs := default (Double_init 0) (food !! "carbs_g" ≫= as_Double_value) in
          let fat := default (Double_init 0) (food !! "fat_g" ≫= as_Double_value) in
          items ++ [{| name := name; calories := calories; proteinG := protein;
                       carbsG := carbs; fatG := fat; micronutrients := None |}]
      | _, _ => items
      end) items (log_foods log)) [] logs.

(** *** More of the manager: listing food logs, analysing a meal *)

Context `{!Codable (list FoodLogResponse)}.

Definition getUserFoodLogs (dateFilter : option string) (limit : Z)
    : M (list FoodLogResponse) :=
  user ← read currentUser;
  userId ← guard_let (username <$> user) notAuthenticated;
  let endpoint := "/users/" +:+ userId +:+ "/food-logs?limit=" +:+ pretty limit in
  let endpoint := match dateFilter with
                  | Some dateFilter => endpoint +:+ "&date_filter=" +:+ dateFilter
                  | None => endpoint
                  end in
  performRequest (T := gmap string value) endpoint "GET" None true.

Record MealRequest := {
  meal_imageUrl : option string;
  meal_userInput : string;
  meal_corrections : option string
}.

(** The synthesized conformance: an optional that is nil is left out
    when encoding, and may be absent or null when decoding. *)
Definition optional_string (key : string) (j : value) : option (option string) :=
  match member key j with
  | None => Some None
  | Some JNull => Some None
  | Some (JStr s) => Some (Some s)
  | Some _ => None
  end.

#[local] Instance Codable_MealRequest : Codable MealRequest := {|
  toJSON r :=
    Some (JObj (list_to_map
      (omap (λ kv : string * option string, (λ s, (kv.1, JStr s)) <$> kv.2)
         [("image_url", meal_imageUrl r); ("user_input", Some (meal_userInput r));
          ("corrections", meal_corrections r)])));
  fromJSON j :=
    i ← optional_string "image_url" j;
    u ← member "user_input" j ≫= as_string;
    c ← optional_string "corrections" j;
    Some {| meal_imageUrl := i; meal_userInput := u; meal_corrections := c |}
|}.

Context `{!Codable MealResponse}.

Definition analyzeMeal (imageUrl : option string) (userInput : string)
    (corrections : option string) : M MealResponse :=
  let request := {| meal_imageUrl := imageUrl; meal_userInput := userInput;
                    meal_corrections := corrections |} in
  performRequest "/ai/analyze-meal" "POST" (Some request) false.

(** *** The food log view (FoodLogView.swift) *)

(** Foundation's [Date], and the view's [DateFormatter] (yyyy-MM-dd). *)
Context {Date : Type}.
Variable dateFormatter_string : Date → string.

Record FoodLogView := {
  logs_foodLogs : list FoodLogResponse;
  logs_isLoading : bool;
  logs_selectedDate : Date;
  logs_showingDatePicker : bool
}.

(** [loadFoodLogs], its [Task] run to the end. *)
Definition loadFoodLogs (view : FoodLogView) : World number → FoodLogView * World number :=
  λ w,
  let dateString := dateFormatter_string (logs_selectedDate view) in
  match getUserFoodLogs (Some dateString) 50 w with
  | (Return logs, w') =>
      ({| logs_foodLogs := logs; logs_isLoading := false;
          logs_selectedDate := logs_selectedDate view;
          logs_showingDatePicker := logs_showingDatePicker view |}, w')
  | (Throw _, w') =>
      ({| logs_foodLogs := []; logs_isLoading := false;
          logs_selectedDate := logs_selectedDate view;
          logs_showingDatePicker := logs_showingDatePicker view |}, w')
  | (Trap, w') =>
      ({| logs_foodLogs := logs_foodLogs view; logs_isLoading := true;
          logs_selectedDate := logs_selectedDate view;
          logs_showingDatePicker := logs_showingDatePicker view |}, w')
  end.

(** *** Analysing a meal from the view (MealAnalysisView.swift) *)

(** [selectedImage.jpegData(compressionQuality: 0.8)] *)
Variable jpegData : UIImage → option string.

(** [analyzeMeal] of the view, its [Task] run to the end. *)
Definition view_analyzeMeal (view : MealAnalysisView)
    : World number → MealAnalysisView * World number := λ w,
  let attempt : M MealResponse :=
    imageUrl ← match selectedImage view ≫= jpegData with
               | Some imageData => url ← uploadImage imageData "meal"; mret (Some url)
               | None => mret None
               end;
    analyzeMeal imageUrl (userInput view)
      (if bool_decide (corrections view = "") then None else Some (corrections view)) in
  match attempt w with
  | (Return response, w') =>
      ({| selectedImage := selectedImage view; userInput := userInput view;
          corrections := corrections view; mealResponse := Some response;
          isAnalyzing := false; view_errorMessage := None |}, w')
  | (Throw error, w') =>
      ({| selectedImage := selectedImage view; userInput := userInput view;
          corrections := corrections view; mealResponse := mealResponse view;
          isAnalyzing := false;
          view_errorMessage := Some (localizedDescription error) |}, w')
  | (Trap, w') =>
      ({| selectedImage := selectedImage view; userInput := userInput view;
          corrections := corrections view; mealResponse := mealResponse view;
          isAnalyzing := true; view_errorMessage := None |}, w')
  end.

(** *** Properties of AnyCodable and of the conversion of stored foods *)

(** X6. An [AnyCodable] that encodes to a JSON value decodes from it as
    itself when it holds an Int, a String or a Bool; a Double comes back
    as an Int whenever the number written for it also reads as an Int,
    because [init(from:)] tries Int first. The decoder and the encoder
    are assumed to agree on the numbers they write. *)
Theorem AnyCodable_round_trip (a : AnyCodable) (j : value) :
  (∀ i, number_to_Int (number_of_Int i) = Some i) →
  (∀ d n, number_of_Double d = Some n → number_to_Double n = Some d) →
  AnyCodable_encode a = Some (Some j) →
  AnyCodable_init_from j =
    match a with
    | AnyDouble d => match as_Int j with Some i => AnyInt i | None => AnyDouble d end
    | _ => a
    end.
Proof.
  intros HInt HDouble Hencode. destruct a as [i|d|s'|b|]; simpl in Hencode.
  - injection Hencode as <-. unfold AnyCodable_init_from. simpl. by rewrite HInt.
  - destruct (number_of_Double d) as [n|] eqn:Hn; simpl in Hencode; [|done].
    injection Hencode as <-. unfold AnyCodable_init_from. simpl.
    destruct (number_to_Int n); [done|]. by rewrite (HDouble d n Hn).
  - by injection Hencode as <-.
  - by injection Hencode as <-.
  - done.
Qed.

(** What one stored food contributes to the converted list. *)
Definition food_item (food : gmap string AnyCodable) : option FoodLogItem :=
  name ← food !! "name" ≫= as_String;
  calories ← food !! "calories" ≫= as_Double_value;
  Some {| name := name; calories := calories;
          proteinG := default (Double_init 0) (food !! "protein_g" ≫= as_Double_value);
          carbsG := default (Double_init 0) (food !! "carbs_g" ≫= as_Double_value);
          fatG := default (Double_init 0) (food !! "fat_g" ≫= as_Double_value);
          micronutrients := None |}.

Lemma convert_foods_spec (foods : list (gmap string AnyCodable)) (items : list FoodLogItem) :
  foldl (λ items food,
      match food !! "name" ≫= as_String, food !! "calories" ≫= as_Double_value with
      | Some name, Some calories =>
          let protein := default (Double_init 0) (food !! "protein_g" ≫= as_Double_value) in
          let carbs := default (Double_init 0) (food !! "carbs_g" ≫= as_Double_value) in
          let fat := default (Double_init 0) (food !! "fat_g" ≫= as_Double_value) in
          items ++ [{| name := name; calories := calories; proteinG := protein;
                       carbsG := carbs; fatG := fat; micronutrients := None |}]
      | _, _ => items
      end) items foods
  = items ++ omap food_item foods.
Proof.
  revert items. induction foods as [|food foods IH]; intros items; simpl.
  - by rewrite app_nil_r.
  - rewrite IH. unfold food_item at 2.
    destruct (food !! "name" ≫= as_String) as [name|]; simpl; [|done].
    destruct (food !! "calories" ≫= as_Double_value) as [calories|]; simpl; [|done].
    by rewrite <- app_assoc.
Qed.

(** The two loops are one pass over the foods of all logs, in order. *)
Lemma convertToFoodLogItems_spec (logs : list FoodLogResponse) :
  convertToFoodLogItems logs = omap food_item (logs ≫= log_foods).
Proof.
  unfold convertToFoodLogItems.
  assert (Hgen : ∀ items,
    foldl (λ items log,
      foldl (λ items food,
        match food !! "name" ≫= as_String, food !! "calories" ≫= as_Double_value with
        | Some name, Some calories =>
            let protein :=
              default (Double_init 0) (food !! "protein_g" ≫= as_Double_value) in
            let carbs := default (Double_init 0) (food !! "carbs_g" ≫= as_Double_value) in
            let fat := default (Double_init 0) (food !! "fat_g" ≫= as_Double_value) in
            items ++ [{| name := name; calories := calories; proteinG := protein;
                         carbsG := carbs; fatG := fat; micronutrients := None |}]
        | _, _ => items
        end) items (log_foods log)) items logs
    = items ++ omap food_item (logs ≫= log_foods)).
  { induction logs as [|log logs IH]; intros items; simpl.
    - by rewrite app_nil_r.
    - rewrite convert_foods_spec, IH, omap_app. by rewrite app_assoc. }
  apply (Hgen []).
Qed.

(** Whether the [calories] of a stored food hold an Int. *)
Definition calories_is_Int (food : gmap string AnyCodable) : bool :=
  match food !! "calories" with
  | Some (AnyInt _) => true
  | _ => false
  end.

(** A log without the foods whose [calories] hold an Int. *)
Definition without_Int_calories (log : FoodLogResponse) : FoodLogResponse :=
  {| log_logId := log_logId log; log_mealTime := log_mealTime log;
     log_foods := filter (λ food, calories_is_Int food = false) (log_foods log);
     log_totalCalories := log_totalCalories log; log_createdAt := log_createdAt log;
     log_dateString := log_dateString log |}.

Lemma food_item_Int_calories (food : gmap string AnyCodable) :
  calories_is_Int food = true → food_item food = None.
Proof.
  unfold calories_is_Int, food_item. intros Hint.
  destruct (food !! "calories") as [[i|d|s'|b|]|]; try done. simpl.
  by destruct (_ ≫= as_String).
Qed.

Lemma omap_food_item_filter (foods : list (gmap string AnyCodable)) :
  omap food_item (filter (λ food, calories_is_Int food = false) foods)
  = omap food_item foods.
Proof.
  induction foods as [|food foods IH]; [done|].
  destruct (decide (calories_is_Int food = false)) as [Hno|Hint].
  - rewrite filter_cons_True by done. csimpl. by rewrite IH.
  - rewrite filter_cons_False by done. csimpl.
    rewrite food_item_Int_calories by by destruct (calories_is_Int food).
    apply IH.
Qed.

(** X7. Advice is computed without the foods whose calories are whole
    numbers. A stored food decoded from a JSON object whose [calories]
    is a number that reads as an Int holds an Int, which is not a
    Double; [convertToFoodLogItems] leaves every such food out, so that
    it gives the same items as on the logs without those foods, in any
    mix with other foods; and when every food of every log is such a
    food the converted list is empty. *)
Theorem integral_calories_are_dropped (logs : list FoodLogResponse) :
  (∀ (members : gmap string value) n i,
     members !! "calories" = Some (JNum n) → number_to_Int n = Some i →
     calories_is_Int (AnyCodable_init_from <$> members) = true) ∧
  convertToFoodLogItems logs = convertToFoodLogItems (without_Int_calories <$> logs) ∧
  ((∀ log food, log ∈ logs → food ∈ log_foods log → calories_is_Int food = true) →
     convertToFoodLogItems logs = []).
Proof.
  split; [|split].
  - intros members n i Hcalories Hint. unfold calories_is_Int.
    rewrite lookup_fmap, Hcalories. simpl. unfold AnyCodable_init_from. simpl.
    by rewrite Hint.
  - rewrite !convertToFoodLogItems_spec.
    induction logs as [|log logs IH]; [done|].
    rewrite fmap_cons, !bind_cons, !omap_app, IH. f_equal.
    symmetry. apply omap_food_item_filter.
  - intros Hwhole. rewrite convertToFoodLogItems_spec.
    assert (Hnone : ∀ food, food ∈ logs ≫= log_foods → food_item food = None).
    { intros food Hin. apply list_elem_of_bind in Hin as (log & Hfood & Hlog).
      apply food_item_Int_calories. by apply (Hwhole log). }
    induction (logs ≫= log_foods) as [|food foods IH]; [done|]. simpl.
    rewrite Hnone by apply list_elem_of_here.
    apply IH. intros other Hin. apply Hnone. by apply list_elem_of_further.
Qed.

(** *** Properties of listing food logs *)

Lemma getUserFoodLogs_no_trap (dateFilter : option string) (limit : Z) (w : World number) :
  (getUserFoodLogs dateFilter limit w).1 ≠ Trap.
Proof.
  unfold getUserFoodLogs. run.
  destruct (currentUser (self w)) as [user|]; simpl; [|done].
  apply performRequest_no_trap.
Qed.

(** X8. The food log view never shows stale logs after a failed load:
    [loadFoodLogs] always ends with [isLoading] false; when the listing
    call throws, the list is emptied; and with no current user (a token
    may be stored) it is emptied without anything being sent. *)
Theorem loadFoodLogs_failure_clears_list (view : FoodLogView) (w : World number) :
  logs_isLoading (loadFoodLogs view w).1 = false ∧
  (currentUser (self w) = None →
     logs_foodLogs (loadFoodLogs view w).1 = [] ∧ (loadFoodLogs view w).2 = w) ∧
  (∀ error w1,
     getUserFoodLogs (Some (dateFormatter_string (logs_selectedDate view))) 50 w
       = (Throw error, w1) →
     logs_foodLogs (loadFoodLogs view w).1 = [] ∧ (loadFoodLogs view w).2 = w1).
Proof.
  unfold loadFoodLogs. split; [|split].
  - pose proof (getUserFoodLogs_no_trap
                  (Some (dateFormatter_string (logs_selectedDate view))) 50 w) as Hno.
    by destruct (getUserFoodLogs _ 50 w) as [[logs|error|] w'].
  - intros Hnone. unfold getUserFoodLogs. run. by rewrite Hnone.
  - by intros error w1 ->.
Qed.

(** *** Properties of the image upload and of the analysis from the view *)

(** X9. [uploadImage] never writes the manager. Without a stored token
    it throws notAuthenticated and sends nothing. And a status other
    than 200 is thrown as serverError with that status whatever the
    body says, the [detail] of an error body included. *)
Theorem uploadImage_errors (w : World number) (imageData imageType : string) :
  self (uploadImage imageData imageType w).2 = self w ∧
  (authToken (self w) = None →
     uploadImage imageData imageType w = (Throw notAuthenticated, w)) ∧
  (∀ token u, authToken (self w) = Some token →
     URL_init (baseURL +:+ "/upload-user-image") = Some u →
     ∃ request,
       wire (uploadImage imageData imageType w).2 = wire w ++ [request] ∧
       ∀ data statusCode,
         URLSession_data (wire w) request = inr (data, HTTPURLResponse statusCode) →
         statusCode ≠ 200%Z →
         (uploadImage imageData imageType w).1 = Throw (serverError statusCode)).
Proof.
  assert (Hnone : authToken (self w) = None →
            uploadImage imageData imageType w = (Throw notAuthenticated, w)).
  { intros Htoken. unfold uploadImage. run. by rewrite Htoken. }
  split; [|split; [done|]].
  - destruct (authToken (self w)) as [token|] eqn:Htoken; [|by rewrite Hnone].
    destruct (URL_init (baseURL +:+ "/upload-user-image")) as [u|] eqn:Hu.
    + destruct (uploadImage_sent w token u imageData imageType Htoken Hu)
        as (request & _ & _ & ->). done.
    + unfold uploadImage. run. by rewrite Htoken, Hu.
  - intros token u Htoken Hu.
    destruct (uploadImage_sent w token u imageData imageType Htoken Hu)
      as (request & _ & _ & ->).
    exists request. split; [done|]. intros data statusCode -> Hstatus.
    simpl. by rewrite bool_decide_eq_false_2.
Qed.

(** X10. An analysis with a photo stops at a failed upload: when
    [uploadImage] throws, the view shows the description of that error,
    keeps the meal it had, ends with [isAnalyzing] false, and the
    analysis itself is never requested. Without a stored token this is
    the case before anything is sent, although the analysis call needs
    no token. *)
Theorem photo_analysis_stops_at_upload (view : MealAnalysisView) (w w1 : World number)
    (imageData : string) (error : Error) :
  selectedImage view ≫= jpegData = Some imageData →
  uploadImage imageData "meal" w = (Throw error, w1) →
  view_analyzeMeal view w =
    ({| selectedImage := selectedImage view; userInput := userInput view;
        corrections := corrections view; mealResponse := mealResponse view;
        isAnalyzing := false;
        view_errorMessage := Some (localizedDescription error) |}, w1) ∧
  (authToken (self w) = None →
     w1 = w ∧ localizedDescription error = "Not authenticated").
Proof.
  intros Himage Hupload. split.
  - unfold view_analyzeMeal. rewrite Himage. run. by rewrite Hupload.
  - intros Htoken. unfold uploadImage in Hupload. run.
    rewrite Htoken in Hupload. run. by injection Hupload as <- <-.
Qed.



(** *** The calls addressed by the current user *)


Context `{!Codable (list Achievement)}.



End Client.

End AINUT.

(** ** The React Native client *)

Module RN.

(** What a [throw] or a rejected promise carries. [Error v] is
    [new Error(v)]: its message is [v] itself when [v] is a string. *)
Inductive exn (number : Type) : Type :=
  | Error (message : json number)
  | TypeError
  | SyntaxError
  | NetworkRequestFailed.

Arguments Error {number} message.
Arguments TypeError {number}.
Arguments SyntaxError {number}.
Arguments NetworkRequestFailed {number}.

Inductive Completion (number A : Type) : Type :=
  | Resolved (a : A)
  | Rejected (e : exn number).

Arguments Resolved {number A} a.
Arguments Rejected {number A} e.

(** The second argument of [fetch]. *)
Record Config (number : Type) := {
  method : option string;
  headers : gmap string string;
  body : option (Data number)
}.

Arguments method {number} _.
Arguments headers {number} _.
Arguments body {number} _.
Arguments Build_Config {number} _ _ _.

(** The [options] argument of [apiRequest]: any field may be absent. *)
Record Options (number : Type) := {
  options_method : option string;
  options_headers : option (gmap string string);
  options_body : option (Data number)
}.

Arguments options_method {number} _.
Arguments options_headers {number} _.
Arguments options_body {number} _.
Arguments Build_Options {number} _ _ _.

Record Response (number : Type) := {
  status : Z;
  response_body : Data number
}.

Arguments status {number} _.
Arguments response_body {number} _.
Arguments Build_Response {number} _ _.

(** [response.ok] *)
Definition ok {number} (response : Response number) : bool :=
  bool_decide (200 ≤ status response ≤ 299)%Z.

Record World (number : Type) := {
  network : list (string * Config number);
  console : list (string * exn number);
  alerts : list (string * string)
}.

Arguments network {number} _.
Arguments console {number} _.
Arguments alerts {number} _.
Arguments Build_World {number} _ _ _.

Definition Promise (number A : Type) : Type :=
  World number → Completion number A * World number.

Section Client.

Context {number : Type}.

Abbreviation value := (json number).
Abbreviation P := (Promise number).

#[local] Instance Promise_ret : MRet P := λ A a w, (Resolved a, w).

#[local] Instance Promise_bind : MBind P := λ A B f m w,
  match m w with
  | (Resolved a, w') => f a w'
  | (Rejected e, w') => (Rejected e, w')
  end.

Definition throw {A} (e : exn number) : P A := λ w, (Rejected e, w).

(** [try { body } catch (error) { handler }] *)
Definition try_catch {A} (body : P A) (handler : exn number → P A) : P A := λ w,
  match body w with
  | (Resolved a, w') => (Resolved a, w')
  | (Rejected e, w') => handler e w'
  end.

Definition console_error (label : string) (error : exn number) : P unit := λ w,
  (Resolved (), {| network := network w; console := console w ++ [(label, error)];
                   alerts := alerts w |}).

Definition Alert_alert (title message : string) : P unit := λ w,
  (Resolved (), {| network := network w; console := console w;
                   alerts := alerts w ++ [(title, message)] |}).

(** *** The language: property reads, truthiness, templates *)

(** Which numbers are falsy (zero and NaN), the number of an integer
    literal, [a + b], and [String(v)] of a value that is not a string;
    the last two for operands whose conversion to a primitive does not
    throw (see [unprintable] below). *)
Variable number_falsy : number → bool.
Variable number_of_Z : Z → number.
Variable js_add : value → option value → value.
Variable ToString : value → string.

(** [v.key]: [None] is [undefined]; reading a property of null throws. *)
Definition get (v : value) (key : string) : P (option value) :=
  match v with
  | JNull => throw TypeError
  | JObj members => mret (members !! key)
  | _ => mret None
  end.

Definition truthy (v : option value) : bool :=
  match v with
  | None => false
  | Some JNull => false
  | Some (JBool b) => b
  | Some (JNum n) => negb (number_falsy n)
  | Some (JStr s) => negb (bool_decide (s = ""))
  | Some (JArr _) => true
  | Some (JObj _) => true
  end.

(** [a || b] with [b] a value *)
Definition or_else (a : option value) (b : value) : value :=
  if truthy a then default b a else b.

(** [${v}] inside a template literal *)
Definition interpolate (v : option value) : string :=
  match v with
  | None => "undefined"
  | Some (JStr s) => s
  | Some JNull => "null"
  | Some v => ToString v
  end.

(** The JSON image of an object literal: members whose value is
    [undefined] are left out, as [JSON.stringify] does. *)
Definition object_of (members : list (string * option value)) : value :=
  JObj (list_to_map (omap (λ kv, (kv.1,.) <$> kv.2) members)).

Definition JSON_stringify (v : value) : Data number := JSONData v.

(** *** src/config/api.js *)

(** [fetch], told the requests sent before this one; [None] when the
    promise rejects (no response). *)
Variable fetch : list (string * Config number) → string → Config number
                 → option (Response number).

Definition API_BASE_URL : string := "https://nutai-production.up.railway.app".

Definition await_fetch (url : string) (config : Config number) : P (Response number) := λ w,
  let w' := {| network := network w ++ [(url, config)]; console := console w;
               alerts := alerts w |} in
  match fetch (network w) url config with
  | Some response => (Resolved response, w')
  | None => (Rejected NetworkRequestFailed, w')
  end.

(** [await response.json()] *)
Definition response_json (response : Response number) : P value :=
  match parsed (response_body response) with
  | Some data => mret data
  | None => throw SyntaxError
  end.

Definition apiRequest (endpoint : string) (options : Options number) : P value :=
  let url := API_BASE_URL +:+ endpoint in
  let defaultOptions_headers : gmap string string :=
    {[ "Content-Type" := "application/json" ]} in
  let config :=
    {| method := options_method options;
       body := options_body options;
       headers := default ∅ (options_headers options) ∪ defaultOptions_headers |} in
  try_catch
    (response ← await_fetch url config;
     data ← response_json response;
     if negb (ok response) then
       detail ← get data "detail";
       throw (Error (or_else detail (JStr "API request failed")))
     else mret data)
    (λ error, console_error "API request error:" error;; throw error).

(** *** The auth context, as the screens read it ([useAuth()]) *)

Record AuthContext := {
  user : value;
  token : option string
}.

Definition Bearer (token : option string) : string :=
  "Bearer " +:+ default "null" token.

(** *** src/screens/FoodLogScreen.js *)

(** [Date], and [d.toISOString().split('T')[0]]. *)
Context {Date : Type}.
Variable isoDay : Date → string.

Record FoodLogScreen := {
  foodLogs : value;
  selectedDate : Date;
  refreshing : bool;
  loading : bool
}.

Definition setFoodLogs (v : value) (s : FoodLogScreen) : FoodLogScreen :=
  {| foodLogs := v; selectedDate := selectedDate s; refreshing := refreshing s;
     loading := loading s |}.

Definition setLoading (b : bool) (s : FoodLogScreen) : FoodLogScreen :=
  {| foodLogs := foodLogs s; selectedDate := selectedDate s; refreshing := refreshing s;
     loading := b |}.


Definition loadFoodLogs (auth : AuthContext) (screen : FoodLogScreen)
    : World number → FoodLogScreen * World number := λ w,
  let dateString := isoDay (selectedDate screen) in
  let attempt :=
    username ← get (user auth) "username";
    apiRequest
      ("/users/" +:+ interpolate username +:+ "/food-logs?date_filter=" +:+ dateString
         +:+ "&limit=50")
      {| options_method := None; options_body := None;
         options_headers := Some {[ "Authorization" := Bearer (token auth) ]} |} in
  match attempt w with
  | (Resolved response, w') => (setLoading false (setFoodLogs response screen), w')
  | (Rejected error, w') =>
      (setLoading false screen,
       {| network := network w'; alerts := alerts w';
          console := console w' ++ [("Error loading food logs:", error)] |})
  end.

(** Whether converting a parsed JSON value to a primitive throws a
    [TypeError], as [a + v] and [groups[v]] make it do. An object whose
    own member [toString] hides the inherited method has no callable
    [toString] (no JSON value is callable) and its [valueOf] returns the
    object itself; an array is joined, which converts each element
    other than null. *)
Fixpoint unprintable (v : value) : bool :=
  match v with
  | JObj members => bool_decide (is_Some (members !! "toString"))
  | JArr items => existsb unprintable items
  | _ => false
  end.

(** The same for the result of a property read, [undefined] included. *)
Definition throws_on_conversion (v : option value) : bool :=
  from_option unprintable false v.

(** [foodLogs.reduce((sum, log) => sum + log.total_calories, 0)]:
    a [TypeError] when [foodLogs] is not an array, holds a null, or
    holds a log whose [total_calories] does not convert to a primitive.
    The sum so far is a number or a string. *)
Definition totalCalories (foodLogs : value) : exn number + value :=
  match foodLogs with
  | JArr logs =>
      foldl (λ acc log,
               match acc, log with
               | inl e, _ => inl e
               | inr _, JNull => inl TypeError
               | inr sum, _ =>
                   if throws_on_conversion (member "total_calories" log) then inl TypeError
                   else inr (js_add sum (member "total_calories" log))
               end)
            (inr (JNum (number_of_Z 0))) logs
  | _ => inl TypeError
  end.

(** [foodLogs.length] when [foodLogs] is an array; [None] stands for
    the other values, whose length no statement below reads. *)
Definition mealCount (foodLogs : value) : option Z :=
  match foodLogs with
  | JArr logs => Some (Z.of_nat (length logs))
  | _ => None
  end.

(** Whether the Daily Summary card is rendered: [foodLogs.length > 0]. *)
Definition summary_shown (foodLogs : value) : bool :=
  match mealCount foodLogs with
  | Some n => bool_decide (0 < n)%Z
  | None => false
  end.


(** *** src/screens/MealAnalysisScreen.js *)

(** [new Date().toISOString().split('T')[0]] *)
Variable today : string.

Record MealAnalysisScreen := {
  selectedImage : value;
  userInput : string;
  mealResult : value;
  isAnalyzing : bool;
  showSaveOptions : bool
}.

(** [mealResult.foods.map(food => ({ name: food.name, ... }))] *)
Definition map_foods (foods : option value) : P (list value) :=
  match foods with
  | Some (JArr items) =>
      mapM (λ food,
              name ← get food "name";
              calories ← get food "calories";
              protein_g ← get food "protein_g";
              carbs_g ← get food "carbs_g";
              fat_g ← get food "fat_g";
              mret (object_of [("name", name); ("calories", calories);
                               ("protein_g", protein_g); ("carbs_g", carbs_g);
                               ("fat_g", fat_g)]))
           items
  | _ => throw TypeError
  end.

Definition saveMeal (auth : AuthContext) (mealType : string) (screen : MealAnalysisScreen)
    : World number → MealAnalysisScreen * World number := λ w,
  if negb (truthy (Some (mealResult screen))) then (screen, w) else
  let attempt : P unit :=
    user_id ← get (user auth) "username";
    foods ← get (mealResult screen) "foods";
    foods ← map_foods foods;
    total_calories ← get (mealResult screen) "total_calories";
    let saveData :=
      object_of [("user_id", user_id); ("date_string", Some (JStr today));
                 ("meal_time", Some (JStr mealType)); ("foods", Some (JArr foods));
                 ("total_calories", total_calories)] in
    apiRequest "/food-logs"
      {| options_method := Some "POST";
         options_headers := Some {[ "Authorization" := Bearer (token auth) ]};
         options_body := Some (JSON_stringify saveData) |};;
    Alert_alert "Success" "Meal saved to your food log!" in
  match attempt w with
  | (Resolved _, w') =>
      ({| selectedImage := JNull; userInput := ""; mealResult := JNull;
          isAnalyzing := isAnalyzing screen; showSaveOptions := false |}, w')
  | (Rejected error, w') =>
      (screen,
       {| network := network w';
          alerts := alerts w' ++ [("Error", "Failed to save meal")];
          console := console w' ++ [("Save error:", error)] |})
  end.

(** *** App.js: the tabs, each with the state of its own component *)

Record MainTabs := {
  Analyze : MealAnalysisScreen;
  Log : FoodLogScreen
}.

(** Choosing a meal type in the Analyze tab runs [saveMeal] there. *)
Definition Analyze_saveMeal (auth : AuthContext) (mealType : string) (tabs : MainTabs)
    : World number → MainTabs * World number := λ w,
  let '(screen, w') := saveMeal auth mealType (Analyze tabs) w in
  ({| Analyze := screen; Log := Log tabs |}, w').

(** *** Properties of [apiRequest] *)

Ltac run :=
  repeat (progress (cbv beta delta
    [mbind mret Promise_bind Promise_ret throw try_catch console_error Alert_alert
     await_fetch response_json] in *; cbn [network console alerts fst snd] in * )).

(** The [config] that [apiRequest] passes to [fetch]. *)
Definition config_of (options : Options number) : Config number :=
  {| method := options_method options;
     body := options_body options;
     headers := default ∅ (options_headers options)
                  ∪ {[ "Content-Type" := "application/json" ]} |}.

(** What [apiRequest] makes of the outcome of [fetch]. *)
Definition api_outcome (answer : option (Response number)) : Completion number value :=
  match answer with
  | None => Rejected NetworkRequestFailed
  | Some response =>
      match parsed (response_body response) with
      | None => Rejected SyntaxError
      | Some data =>
          if ok response then Resolved data
          else match data with
               | JNull => Rejected TypeError
               | _ => Rejected (Error (or_else (member "detail" data)
                                         (JStr "API request failed")))
               end
      end
  end.

Definition logged (label : string) {A} (result : Completion number A)
    : list (string * exn number) :=
  match result with
  | Resolved _ => []
  | Rejected error => [(label, error)]
  end.

(** [apiRequest] always calls [fetch], once, whatever the headers. *)
Lemma apiRequest_run (endpoint : string) (options : Options number) (w : World number) :
  let url := API_BASE_URL +:+ endpoint in
  let result := api_outcome (fetch (network w) url (config_of options)) in
  apiRequest endpoint options w =
    (result,
     {| network := network w ++ [(url, config_of options)];
        console := console w ++ logged "API request error:" result;
        alerts := alerts w |}).
Proof.
  cbv zeta. unfold apiRequest. fold (config_of options). run.
  unfold api_outcome.
  destruct (fetch _ _ _) as [response|]; simpl; [|done].
  destruct (parsed _) as [data|]; simpl; [|done].
  destruct (ok response); simpl.
  - by rewrite app_nil_r.
  - unfold get. by destruct data.
Qed.

(** A body is an error body with detail [X] when it is a JSON object
    whose member [detail] is the string [X]. *)
Definition has_detail (data : Data number) (X : string) : Prop :=
  ∃ members, data = JSONData (JObj members) ∧ members !! "detail" = Some (JStr X).

(** The rejections of a response that is not ok. *)
Lemma api_outcome_not_ok (response : Response number) :
  ok response = false →
  (∀ X, has_detail (response_body response) X → X ≠ "" →
     api_outcome (Some response) = Rejected (Error (JStr X))) ∧
  (∀ members, response_body response = JSONData (JObj members) →
     members !! "detail" = None →
     api_outcome (Some response) = Rejected (Error (JStr "API request failed"))) ∧
  (parsed (response_body response) = None →
     api_outcome (Some response) = Rejected SyntaxError).
Proof.
  intros Hok. unfold api_outcome. rewrite Hok. split; [|split].
  - intros X (members & -> & Hdetail) HX. simpl. rewrite Hdetail.
    unfold or_else. simpl. by rewrite bool_decide_eq_false_2.
  - intros members -> Hdetail. simpl. by rewrite Hdetail.
  - by intros ->.
Qed.

(** [apiRequest] resolves exactly on an ok response with a JSON body,
    and then with the parsed body. *)
Lemma api_outcome_resolved (response : Response number) (data : value) :
  api_outcome (Some response) = Resolved data ↔
  (200 ≤ status response ≤ 299)%Z ∧ parsed (response_body response) = Some data.
Proof.
  unfold api_outcome, ok.
  destruct (parsed _) as [d|]; [|by split; [|intros [_ ?]]].
  case_bool_decide as Hok; split.
  - by intros [= ->].
  - by intros [_ [= ->]].
  - by destruct d.
  - by intros [? _].
Qed.

(** *** Properties of the food-log screen *)

Lemma get_not_null (v : value) (key : string) (w : World number) :
  v ≠ JNull → get v key w = (Resolved (member key v), w).
Proof. by destruct v. Qed.

(** The URL and the config of the list call. *)
Definition food_logs_url (auth : AuthContext) (screen : FoodLogScreen) : string :=
  API_BASE_URL +:+ "/users/" +:+ interpolate (member "username" (user auth))
    +:+ "/food-logs?date_filter=" +:+ isoDay (selectedDate screen) +:+ "&limit=50".

Definition food_logs_config (auth : AuthContext) : Config number :=
  config_of {| options_method := None; options_body := None;
               options_headers := Some {[ "Authorization" := Bearer (token auth) ]} |}.


(** With no logs the Daily Summary card is not rendered. *)
Lemma summary_hidden_when_empty : summary_shown (JArr []) = false.
Proof. reflexivity. Qed.

(** *** Properties of saving a meal *)

Lemma get_cases (v : value) (key : string) (w : World number) :
  get v key w = (Rejected TypeError, w) ∨ get v key w = (Resolved (member key v), w).
Proof. destruct v; simpl; eauto. Qed.

(** Building the list of foods sends and logs nothing: it resolves, or
    it throws a [TypeError]. *)
Lemma map_foods_pure (foods : option value) (w : World number) :
  map_foods foods w = (Rejected TypeError, w) ∨ ∃ items, map_foods foods w = (Resolved items, w).
Proof.
  destruct foods as [[| | | |items|]|]; simpl; eauto.
  induction items as [|food items IH]; simpl; [by eauto|]. run.
  destruct (get_cases food "name" w) as [->| ->]; [by left|].
  destruct (get_cases food "calories" w) as [->| ->]; [by left|].
  destruct (get_cases food "protein_g" w) as [->| ->]; [by left|].
  destruct (get_cases food "carbs_g" w) as [->| ->]; [by left|].
  destruct (get_cases food "fat_g" w) as [->| ->]; [by left|].
  destruct IH as [->|[rest ->]]; eauto.
Qed.

(** [saveMeal] when every POST to /food-logs is answered 401 with the
    body {detail: Token expired}: the screen keeps its state, the alert
    is the fixed text, and the error of the client is on the console. *)
Lemma saveMeal_token_expired (auth : AuthContext) (mealType : string)
    (screen : MealAnalysisScreen) (w : World number) (response : Response number) :
  (∀ config, method config = Some "POST" →
     fetch (network w) (API_BASE_URL +:+ "/food-logs") config = Some response) →
  status response = 401%Z →
  response_body response = JSONData (JObj {[ "detail" := JStr "Token expired" ]}) →
  truthy (Some (mealResult screen)) = true →
  ∃ w', saveMeal auth mealType screen w = (screen, w') ∧
    alerts w' = alerts w ++ [("Error", "Failed to save meal")] ∧
    ((network w' = network w ∧ console w' = console w ++ [("Save error:", TypeError)]) ∨
     (∃ config,
        network w' = network w ++ [(API_BASE_URL +:+ "/food-logs", config)] ∧
        method config = Some "POST" ∧
        headers config !! "Authorization" = Some (Bearer (token auth)) ∧
        console w' = console w ++ [("API request error:", Error (JStr "Token expired"));
                                   ("Save error:", Error (JStr "Token expired"))])).
Proof.
  intros Hfetch Hstatus Hbody Htruthy.
  assert (Hearly : ∃ w', (screen,
             {| network := network w; alerts := alerts w ++ [("Error", "Failed to save meal")];
                console := console w ++ [("Save error:", TypeError)] |}) = (screen, w') ∧
            alerts w' = alerts w ++ [("Error", "Failed to save meal")] ∧
            ((network w' = network w ∧
              console w' = console w ++ [("Save error:", @TypeError number)]) ∨
             (∃ config,
                network w' = network w ++ [(API_BASE_URL +:+ "/food-logs", config)] ∧
                method config = Some "POST" ∧
                headers config !! "Authorization" = Some (Bearer (token auth)) ∧
                console w' = console w
                  ++ [("API request error:", Error (JStr "Token expired"));
                      ("Save error:", Error (JStr "Token expired"))]))).
  { eexists. split; [done|]. split; [done|]. by left. }
  unfold saveMeal. rewrite Htruthy. simpl. run.
  destruct (get_cases (user auth) "username" w) as [->| ->]; [done|].
  destruct (get_cases (mealResult screen) "foods" w) as [->| ->]; [done|].
  destruct (map_foods_pure (member "foods" (mealResult screen)) w) as [->|[items ->]];
    [done|].
  destruct (get_cases (mealResult screen) "total_calories" w) as [->| ->]; [done|].
  rewrite apiRequest_run. cbn [network].
  rewrite Hfetch by done.
  unfold api_outcome, ok. rewrite Hbody, Hstatus. simpl.
  eexists. split; [done|]. split; [done|]. right.
  eexists. split; [done|]. split; [done|]. split.
  - simpl. by simplify_map_eq.
  - simpl. by rewrite <- app_assoc.
Qed.

Lemma Analyze_saveMeal_tabs (auth : AuthContext) (mealType : string) (tabs : MainTabs)
    (w w' : World number) :
  saveMeal auth mealType (Analyze tabs) w = (Analyze tabs, w') →
  Analyze_saveMeal auth mealType tabs w = (tabs, w').
Proof. unfold Analyze_saveMeal. intros ->. by destruct tabs. Qed.

(** *** Further properties of [apiRequest] *)

(** X12. The headers of the caller win over the default: the request
    [apiRequest] sends has the caller's method and body, every header
    the caller gave with the caller's value, and Content-Type:
    application/json exactly when the caller gave no Content-Type. *)
Theorem apiRequest_headers (endpoint : string) (options : Options number) (w : World number) :
  ∃ config,
    network (apiRequest endpoint options w).2
      = network w ++ [(API_BASE_URL +:+ endpoint, config)] ∧
    method config = options_method options ∧
    body config = options_body options ∧
    ∀ name : string,
      headers config !! name =
        match options_headers options ≫= (λ given, given !! name) with
        | Some v => Some v
        | None => if bool_decide (name = "Content-Type") then Some "application/json"
                  else None
        end.
Proof.
  exists (config_of options). rewrite apiRequest_run. cbn [snd network].
  split; [done|]. split; [done|]. split; [done|].
  intros name. unfold config_of. cbn [headers]. rewrite lookup_union.
  destruct (options_headers options) as [given|]; simpl.
  - destruct (given !! name) as [v|]; simpl.
    + by destruct ({[ "Content-Type" := "application/json" ]} !! name).
    + case_bool_decide as Hname; [subst name; by simplify_map_eq|].
      by rewrite lookup_singleton_ne.
  - rewrite lookup_empty. simpl.
    case_bool_decide as Hname; [subst name; by simplify_map_eq|].
    by rewrite lookup_singleton_ne.
Qed.


(** *** Further properties of the food-log screen *)

(** X14. A failed load keeps what the screen showed: [loadFoodLogs]
    always ends with [loading] false and the same selected date; with no
    user it sends nothing; and whenever the list call does not resolve,
    the food logs are the ones held before. *)
Theorem loadFoodLogs_keeps_list_on_failure (auth : AuthContext) (screen : FoodLogScreen)
    (w : World number) :
  loading (loadFoodLogs auth screen w).1 = false ∧
  selectedDate (loadFoodLogs auth screen w).1 = selectedDate screen ∧
  (user auth = JNull →
     foodLogs (loadFoodLogs auth screen w).1 = foodLogs screen ∧
     network (loadFoodLogs auth screen w).2 = network w) ∧
  (user auth ≠ JNull →
     (∀ data, api_outcome (fetch (network w) (food_logs_url auth screen)
                             (food_logs_config auth)) ≠ Resolved data) →
     foodLogs (loadFoodLogs auth screen w).1 = foodLogs screen).
Proof.
  unfold loadFoodLogs. run.
  destruct (get_cases (user auth) "username" w) as [Hget|Hget]; rewrite Hget.
  - simpl. split; [done|]. split; [done|]. split; [done|].
    intros Huser _. by rewrite get_not_null in Hget.
  - rewrite apiRequest_run.
    change (API_BASE_URL +:+ _) with (food_logs_url auth screen).
    fold (food_logs_config auth). cbn [network].
    destruct (api_outcome _) as [data|error] eqn:Houtcome; simpl.
    + split; [done|]. split; [done|]. split.
      * intros Hnull. rewrite Hnull in Hget. done.
      * intros _ Hfail. by destruct (Hfail data).
    + split; [done|]. split; [done|]. split; [|done].
      intros Hnull. rewrite Hnull in Hget. done.
Qed.

Lemma null_or_not (v : value) : v = JNull ∨ v ≠ JNull.
Proof. destruct v; eauto. Qed.

Lemma totalCalories_snoc (logs : list value) (log : value) :
  totalCalories (JArr (logs ++ [log])) =
    match totalCalories (JArr logs), log with
    | inl e, _ => inl e
    | inr _, JNull => inl TypeError
    | inr sum, _ =>
        if throws_on_conversion (member "total_calories" log) then inl TypeError
        else inr (js_add sum (member "total_calories" log))
    end.
Proof. unfold totalCalories. by rewrite foldl_app. Qed.

(** A log that cannot be added: null, or one whose [total_calories]
    does not convert to a primitive. *)
Definition stops_the_total (log : value) : Prop :=
  log = JNull ∨ throws_on_conversion (member "total_calories" log) = true.

Lemma totalCalories_spec (logs : list value) :
  match totalCalories (JArr logs) with
  | inl error => error = TypeError ∧ ∃ log, log ∈ logs ∧ stops_the_total log
  | inr _ => ∀ log, log ∈ logs → ¬ stops_the_total log
  end.
Proof.
  induction logs as [|log logs IH] using rev_ind.
  { simpl. by intros log ?%elem_of_nil. }
  rewrite totalCalories_snoc.
  destruct (totalCalories (JArr logs)) as [error|sum].
  { destruct IH as [-> (bad & Hin & Hbad)]. split; [done|].
    exists bad. split; [|done]. apply elem_of_app. by left. }
  assert (Hlast : log ∈ logs ++ [log]).
  { apply elem_of_app. right. by apply list_elem_of_singleton. }
  destruct (null_or_not log) as [->|Hnull].
  { split; [done|]. exists JNull. split; [done|]. by left. }
  assert (Hstep :
    (if throws_on_conversion (member "total_calories" log) then inl TypeError
     else inr (js_add sum (member "total_calories" log))) =
    match log with
    | JNull => @inl (exn number) value TypeError
    | _ =>
        if throws_on_conversion (member "total_calories" log) then inl TypeError
        else inr (js_add sum (member "total_calories" log))
    end) by (by destruct log).
  rewrite <- Hstep. clear Hstep.
  destruct (throws_on_conversion (member "total_calories" log)) eqn:Hthrows.
  { split; [done|]. exists log. split; [done|]. by right. }
  intros other [Hin|Hin%list_elem_of_singleton]%elem_of_app; [by apply IH|].
  subst other. intros [?|Hbad]; [done|]. by rewrite Hthrows in Hbad.
Qed.

(** X15. The daily total throws exactly when the list is not an array,
    holds a null, or holds a log whose [total_calories] does not
    convert to a primitive (an object with a member named toString, or
    an array that holds one); what it throws is a TypeError. Any other
    entry, whatever it is, is added. *)
Theorem totalCalories_throws (foodLogs : value) :
  ((∃ error, totalCalories foodLogs = inl error) ↔
   (∀ logs, foodLogs ≠ JArr logs) ∨
   (∃ logs log, foodLogs = JArr logs ∧ log ∈ logs ∧
      (log = JNull ∨ throws_on_conversion (member "total_calories" log) = true))) ∧
  (∀ error, totalCalories foodLogs = inl error → error = TypeError).
Proof.
  destruct foodLogs as [| | | |logs|];
    try (split; [split; [by left|by eexists]|by intros error [= <-]]).
  pose proof (totalCalories_spec logs) as Hspec.
  destruct (totalCalories (JArr logs)) as [error|sum].
  - destruct Hspec as [-> (bad & Hin & Hbad)]. split; [|by intros error [= <-]].
    split; [|by eexists]. intros _. right. by exists logs, bad.
  - split; [|done]. split; [by intros [? ?]|].
    intros [Hnot|(logs' & bad & [= <-] & Hin & Hbad)]; [by destruct (Hnot logs)|].
    by destruct (Hspec bad Hin).
Qed.

(** *** More of the screens: grouping, analysing, profile, advice *)

(** Whether [Object.prototype] defines a property of that name
    (constructor, toString, ...): the empty object literal has it
    before any assignment. *)
Variable Object_prototype_has : string → bool.

(** [foodLogs.reduce((groups, log) => { ... }, {})] of FoodLogScreen.js:
    the key of a log is [log.meal_time] as a property name, and
    [groups[mealTime]] throws when that conversion does. *)
Definition groupedLogs (foodLogs : value) : exn number + gmap string (list value) :=
  match foodLogs with
  | JArr logs =>
      foldl (λ (acc : exn number + gmap string (list value)) (log : value),
               match acc, log with
               | inl e, _ => inl e
               | inr _, JNull => inl TypeError
               | inr groups, _ =>
                   if throws_on_conversion (member "meal_time" log) then inl TypeError
                   else
                   let mealTime := interpolate (member "meal_time" log) in
                   match groups !! mealTime with
                   | Some group => inr (<[ mealTime := group ++ [log] ]> groups)
                   | None =>
                       if Object_prototype_has mealTime then inl TypeError
                       else inr (<[ mealTime := [log] ]> groups)
                   end
               end) (inr ∅) logs
  | _ => inl TypeError
  end.

(** What evaluating an identifier that the file neither declares nor
    imports throws (a ReferenceError), by the name of the identifier. *)
Variable unbound : string → exn number.

(** [s.trim()] *)
Variable trim : string → string.

Definition setIsAnalyzing (b : bool) (s : MealAnalysisScreen) : MealAnalysisScreen :=
  {| selectedImage := selectedImage s; userInput := userInput s;
     mealResult := mealResult s; isAnalyzing := b; showSaveOptions := showSaveOptions s |}.

(** [analyzeMeal] of MealAnalysisScreen.js. The file imports only
    [apiRequest] from the config, so the URL of the upload, which names
    [API_BASE_URL], cannot be evaluated. *)
Definition analyzeMeal (auth : AuthContext) (screen : MealAnalysisScreen)
    : World number → MealAnalysisScreen * World number := λ w,
  if bool_decide (trim (userInput screen) = "") then
    (screen, {| network := network w; console := console w;
                alerts := alerts w ++ [("Error", "Please describe your meal")] |})
  else
  let attempt : P value :=
    imageUrl ← (if truthy (Some (selectedImage screen)) then
                  uri ← get (selectedImage screen) "uri";
                  throw (unbound "API_BASE_URL")
                else mret JNull);
    let analysisData :=
      object_of [("user_input", Some (JStr (userInput screen)));
                 ("image_url", Some imageUrl)] in
    apiRequest "/ai/analyze-meal"
      {| options_method := Some "POST";
         options_headers := Some {[ "Authorization" := Bearer (token auth) ]};
         options_body := Some (JSON_stringify analysisData) |} in
  match attempt w with
  | (Resolved result, w') =>
      ({| selectedImage := selectedImage screen; userInput := userInput screen;
          mealResult := result; isAnalyzing := false; showSaveOptions := true |}, w')
  | (Rejected error, w') =>
      (setIsAnalyzing false screen,
       {| network := network w';
          alerts := alerts w' ++ [("Error", "Failed to analyze meal. Please try again.")];
          console := console w' ++ [("Analysis error:", error)] |})
  end.

(** ProfileScreen.js *)
Record ProfileScreen := {
  profile : value;
  achievements : value;
  notificationsEnabled : bool
}.

(** [loadProfileData]. The screen takes [user] and [logout] from
    [useAuth()], not [token], which the two headers name. The lines
    written with [console.log] are returned beside the world. *)
Definition loadProfileData (auth : AuthContext) (screen : ProfileScreen)
    : World number → ProfileScreen * World number * list string := λ w,
  let request (path : string) : P value :=
    username ← get (user auth) "username";
    authorization ← (throw (unbound "token") : P string);
    apiRequest ("/users/" +:+ interpolate username +:+ path)
      {| options_method := None; options_body := None;
         options_headers := Some {[ "Authorization" := "Bearer " +:+ authorization ]} |} in
  let '(screen1, w1, log1) :=
    match request "/profile" w with
    | (Resolved profileResponse, w') =>
        ({| profile := profileResponse; achievements := achievements screen;
            notificationsEnabled := notificationsEnabled screen |}, w', [])
    | (Rejected _, w') => (screen, w', ["No profile found"])
    end in
  match request "/achievements" w1 with
  | (Resolved achievementsResponse, w') =>
      ({| profile := profile screen1; achievements := achievementsResponse;
          notificationsEnabled := notificationsEnabled screen1 |}, w', log1)
  | (Rejected _, w') => (screen1, w', log1 ++ ["No achievements found"])
  end.


(** The loop that turns the stored logs into the food log of the advice
    request: [value || fallback] for each of the five fields. *)
Definition advice_item (food : value) : P value :=
  name ← get food "name";
  calories ← get food "calories";
  protein_g ← get food "protein_g";
  carbs_g ← get food "carbs_g";
  fat_g ← get food "fat_g";
  mret (object_of [("name", Some (or_else name (JStr "Unknown food")));
                   ("calories", Some (or_else calories (JNum (number_of_Z 0))));
                   ("protein_g", Some (or_else protein_g (JNum (number_of_Z 0))));
                   ("carbs_g", Some (or_else carbs_g (JNum (number_of_Z 0))));
                   ("fat_g", Some (or_else fat_g (JNum (number_of_Z 0))))]).

Definition advice_items_of_log (log : value) : P (list value) :=
  foods ← get log "foods";
  if truthy foods then
    match foods with
    | Some (JArr items) => mapM advice_item items
    | _ => throw TypeError
    end
  else mret [].

Definition foodLogItems (foodLogsResponse : value) : P (list value) :=
  match foodLogsResponse with
  | JArr logs => groups ← mapM advice_items_of_log logs; mret (concat groups)
  | _ => throw TypeError
  end.


(** *** Properties of the grouping by meal time *)

(** The property name under which a log is filed. *)
Definition meal_time_key (log : value) : string := interpolate (member "meal_time" log).

(** The logs filed under a name, in the order of the list. *)
Definition filed_under (mealTime : string) (logs : list value) : list value :=
  filter (λ log, meal_time_key log = mealTime) logs.

Lemma groupedLogs_snoc (logs : list value) (log : value) :
  groupedLogs (JArr (logs ++ [log])) =
    match groupedLogs (JArr logs), log with
    | inl e, _ => inl e
    | inr _, JNull => inl TypeError
    | inr groups, _ =>
        if throws_on_conversion (member "meal_time" log) then inl TypeError
        else
        match groups !! meal_time_key log with
        | Some group => inr (<[ meal_time_key log := group ++ [log] ]> groups)
        | None =>
            if Object_prototype_has (meal_time_key log) then inl TypeError
            else inr (<[ meal_time_key log := [log] ]> groups)
        end
    end.
Proof. unfold groupedLogs. by rewrite foldl_app. Qed.

(** A log that cannot be filed: null, one whose [meal_time] does not
    convert to a property name, or one whose meal time names a property
    that every object inherits. *)
Definition stops_the_grouping (log : value) : Prop :=
  log = JNull ∨ throws_on_conversion (member "meal_time" log) = true ∨
  Object_prototype_has (meal_time_key log) = true.

Lemma groupedLogs_spec (logs : list value) :
  match groupedLogs (JArr logs) with
  | inl error => error = TypeError ∧ ∃ log, log ∈ logs ∧ stops_the_grouping log
  | inr groups =>
      (∀ log, log ∈ logs → ¬ stops_the_grouping log) ∧
      (∀ mealTime,
         groups !! mealTime = match filed_under mealTime logs with
                              | [] => None
                              | group => Some group
                              end)
  end.
Proof.
  induction logs as [|log logs IH] using rev_ind.
  { simpl. split; [by intros log ?%elem_of_nil|]. intros mealTime. apply lookup_empty. }
  rewrite groupedLogs_snoc.
  destruct (groupedLogs (JArr logs)) as [error|groups].
  { destruct IH as [-> (bad & Hin & Hbad)]. split; [done|].
    exists bad. split; [|done]. apply elem_of_app. by left. }
  destruct IH as [Hfine Hgroups].
  assert (Hlast : log ∈ logs ++ [log]).
  { apply elem_of_app. right. by apply list_elem_of_singleton. }
  destruct (null_or_not log) as [->|Hnull].
  { split; [done|]. exists JNull. split; [done|]. by left. }
  assert (Hfiled : ∀ mealTime,
    filed_under mealTime (logs ++ [log]) =
      filed_under mealTime logs
        ++ (if decide (meal_time_key log = mealTime) then [log] else [])).
  { intros mealTime. unfold filed_under. rewrite filter_app. by f_equal. }
  assert (Hstep :
    (if throws_on_conversion (member "meal_time" log) then inl TypeError
     else
     match groups !! meal_time_key log with
     | Some group => inr (<[ meal_time_key log := group ++ [log] ]> groups)
     | None =>
         if Object_prototype_has (meal_time_key log) then inl TypeError
         else inr (<[ meal_time_key log := [log] ]> groups)
     end) =
    match log with
    | JNull => @inl (exn number) _ TypeError
    | _ =>
        if throws_on_conversion (member "meal_time" log) then inl TypeError
        else
        match groups !! meal_time_key log with
        | Some group => inr (<[ meal_time_key log := group ++ [log] ]> groups)
        | None =>
            if Object_prototype_has (meal_time_key log) then inl TypeError
            else inr (<[ meal_time_key log := [log] ]> groups)
        end
    end) by (by destruct log).
  rewrite <- Hstep. clear Hstep.
  destruct (throws_on_conversion (member "meal_time" log)) eqn:Hthrows.
  { split; [done|]. exists log. split; [done|]. right. by left. }
  assert (Hothers : Object_prototype_has (meal_time_key log) = false →
            ∀ other, other ∈ logs ++ [log] → ¬ stops_the_grouping other).
  { intros Hproto other [Hin|Hin%list_elem_of_singleton]%elem_of_app; [by apply Hfine|].
    subst other. intros [?|[Hbad|Hbad]]; [done| |].
    - by rewrite Hthrows in Hbad.
    - by rewrite Hproto in Hbad. }
  destruct (groups !! meal_time_key log) as [group|] eqn:Hgroup.
  - rewrite Hgroups in Hgroup.
    assert (Hproto : Object_prototype_has (meal_time_key log) = false).
    { destruct (filed_under (meal_time_key log) logs) as [|first others] eqn:Hfilter;
        [done|].
      assert (Hfirst : first ∈ filed_under (meal_time_key log) logs)
        by (rewrite Hfilter; apply elem_of_cons; by left).
      apply list_elem_of_filter in Hfirst as [Hkey Hin].
      destruct (Object_prototype_has (meal_time_key log)) eqn:Hhas; [|done].
      destruct (Hfine first Hin). right. right. by rewrite Hkey. }
    split; [by apply Hothers|].
    intros mealTime. rewrite Hfiled.
    destruct (decide (meal_time_key log = mealTime)) as [<-|Hother].
    + rewrite lookup_insert_eq.
      destruct (filed_under (meal_time_key log) logs); [done|].
      by injection Hgroup as <-.
    + rewrite lookup_insert_ne by done. by rewrite app_nil_r.
  - rewrite Hgroups in Hgroup.
    destruct (Object_prototype_has (meal_time_key log)) eqn:Hproto.
    { split; [done|]. exists log. split; [done|]. right. by right. }
    split; [by apply Hothers|].
    intros mealTime. rewrite Hfiled.
    destruct (decide (meal_time_key log = mealTime)) as [<-|Hother].
    + rewrite lookup_insert_eq.
      by destruct (filed_under (meal_time_key log) logs).
    + rewrite lookup_insert_ne by done. by rewrite app_nil_r.
Qed.

(** X16. Grouping the logs by meal time is a partition that keeps the
    order: when it succeeds, the group of a meal time holds exactly the
    logs of that meal time, in list order, and no group is empty. It
    throws, a TypeError, exactly when a log is null, the meal time of a
    log does not convert to a property name (an object with a member
    named toString, or an array that holds one), or the meal time of a
    log names a property that every object inherits. *)
Theorem groupedLogs_partition (logs : list value) :
  match groupedLogs (JArr logs) with
  | inl error =>
      error = TypeError ∧
      ∃ log, log ∈ logs ∧
        (log = JNull ∨ throws_on_conversion (member "meal_time" log) = true ∨
         Object_prototype_has (meal_time_key log) = true)
  | inr groups =>
      (∀ log, log ∈ logs →
         log ≠ JNull ∧ throws_on_conversion (member "meal_time" log) = false ∧
         Object_prototype_has (meal_time_key log) = false) ∧
      (∀ mealTime group,
         groups !! mealTime = Some group ↔
         group = filed_under mealTime logs ∧ group ≠ [])
  end.
Proof.
  pose proof (groupedLogs_spec logs) as Hspec.
  destruct (groupedLogs (JArr logs)) as [error|groups]; [done|].
  destruct Hspec as [Hfine Hgroups]. split.
  - intros log Hin. pose proof (Hfine log Hin) as Hlog. unfold stops_the_grouping in Hlog.
    split; [by intros ->; apply Hlog; left|]. split.
    + destruct (throws_on_conversion _) eqn:Hthrows; [|done].
      destruct Hlog. right. by left.
    + destruct (Object_prototype_has _) eqn:Hproto; [|done].
      destruct Hlog. right. by right.
  - intros mealTime group. rewrite Hgroups.
    destruct (filed_under mealTime logs) as [|first others]; split.
    + done.
    + by intros [-> ?].
    + by intros [= <-].
    + by intros [-> _].
Qed.

(** *** Properties of analysing a meal *)

Lemma truthy_not_null (v : value) : truthy (Some v) = true → v ≠ JNull.
Proof. by intros Htruthy ->. Qed.

(** X17. With a photo selected, [analyzeMeal] sends nothing at all: the
    upload URL names [API_BASE_URL], which the screen does not import,
    so the attempt stops there, the fixed failure alert is shown, the
    result of an earlier analysis stays, and the spinner is cleared. *)
Theorem analyzeMeal_with_photo (auth : AuthContext) (screen : MealAnalysisScreen)
    (w : World number) :
  trim (userInput screen) ≠ "" →
  truthy (Some (selectedImage screen)) = true →
  analyzeMeal auth screen w =
    (setIsAnalyzing false screen,
     {| network := network w;
        alerts := alerts w ++ [("Error", "Failed to analyze meal. Please try again.")];
        console := console w ++ [("Analysis error:", unbound "API_BASE_URL")] |}).
Proof.
  intros Hinput Hphoto. unfold analyzeMeal.
  rewrite bool_decide_eq_false_2 by done. rewrite Hphoto. run.
  by rewrite get_not_null by by apply truthy_not_null.
Qed.

(** The request of an analysis by text. *)
Definition analysis_config (auth : AuthContext) (screen : MealAnalysisScreen)
    : Config number :=
  config_of
    {| options_method := Some "POST";
       options_headers := Some {[ "Authorization" := Bearer (token auth) ]};
       options_body :=
         Some (JSON_stringify
                 (object_of [("user_input", Some (JStr (userInput screen)));
                             ("image_url", Some JNull)])) |}.

(** X18. Without a photo, [analyzeMeal] on a description that is not
    blank sends exactly one request, POST /ai/analyze-meal, whose body
    holds the description as typed and a null image URL. If the call
    resolves, its result becomes the meal result and the save options
    are shown, with no alert; if not, the screen keeps the result it
    had and shows the fixed failure alert. The spinner is cleared either
    way. *)
Theorem analyzeMeal_text_only (auth : AuthContext) (screen : MealAnalysisScreen)
    (w : World number) :
  trim (userInput screen) ≠ "" →
  truthy (Some (selectedImage screen)) = false →
  let url := API_BASE_URL +:+ "/ai/analyze-meal" in
  let outcome := api_outcome (fetch (network w) url (analysis_config auth screen)) in
  let '(screen', w') := analyzeMeal auth screen w in
  network w' = network w ++ [(url, analysis_config auth screen)] ∧
  body (analysis_config auth screen) =
    Some (JSONData (JObj {[ "user_input" := JStr (userInput screen);
                            "image_url" := JNull ]})) ∧
  isAnalyzing screen' = false ∧
  userInput screen' = userInput screen ∧
  selectedImage screen' = selectedImage screen ∧
  match outcome with
  | Resolved result =>
      mealResult screen' = result ∧ showSaveOptions screen' = true ∧
      alerts w' = alerts w
  | Rejected error =>
      mealResult screen' = mealResult screen ∧
      showSaveOptions screen' = showSaveOptions screen ∧
      alerts w' = alerts w ++ [("Error", "Failed to analyze meal. Please try again.")]
  end.
Proof.
  intros Hinput Hphoto. cbv zeta. unfold analyzeMeal.
  rewrite bool_decide_eq_false_2 by done. rewrite Hphoto. run.
  rewrite apiRequest_run. fold (analysis_config auth screen). cbn [network].
  destruct (api_outcome _) as [result|error]; simpl; done.
Qed.

(** *** Properties of the profile screen *)

(** X19. [loadProfileData] never reaches the server: both requests name
    [token], which the screen does not take from the auth context, so
    each attempt stops before [apiRequest] is called. Nothing is sent,
    the profile and the achievements keep the values they had, and both
    fallback lines are logged. *)
Theorem loadProfileData_sends_nothing (auth : AuthContext) (screen : ProfileScreen)
    (w : World number) :
  loadProfileData auth screen w =
    (screen, w, ["No profile found"; "No achievements found"]).
Proof.
  unfold loadProfileData. run.
  destruct (get_cases (user auth) "username" w) as [Hget|Hget];
    rewrite Hget; simpl; by rewrite Hget.
Qed.

(** *** Properties of the advice screen *)

Definition food_fields : list string :=
  ["name"; "calories"; "protein_g"; "carbs_g"; "fat_g"].

(** The member of an object literal: the first entry of that name whose
    value is not [undefined]. *)
Fixpoint entry (key : string) (members : list (string * option value)) : option value :=
  match members with
  | [] => None
  | (k, v) :: rest =>
      if decide (k = key) then match v with Some x => Some x | None => entry key rest end
      else entry key rest
  end.

Lemma member_object_of (key : string) (members : list (string * option value)) :
  member key (object_of members) = entry key members.
Proof.
  unfold object_of. simpl.
  induction members as [|[k [x|]] rest IH]; simpl in *.
  - apply lookup_empty.
  - destruct (decide (k = key)) as [->|Hother].
    + by rewrite lookup_insert_eq.
    + by rewrite lookup_insert_ne.
  - destruct (decide (k = key)); apply IH.
Qed.

Lemma object_of_JObj (members : list (string * option value)) :
  ∃ m, object_of members = JObj m.
Proof. by eexists. Qed.

(** Whether an item is an object that has all of the five fields of a
    food and no other. *)
Definition food_shaped (item : value) : Prop :=
  ∀ key, is_Some (member key item) ↔ key ∈ food_fields.

Lemma advice_item_run (food : value) (w : World number) :
  advice_item food w = (Rejected TypeError, w) ∨
  ∃ item, advice_item food w = (Resolved item, w) ∧ food_shaped item ∧
    ∀ key, key ∈ food_fields → truthy (member key food) = true →
           member key item = member key food.
Proof.
  destruct (null_or_not food) as [->|Hfood]; [by left|].
  right. unfold advice_item. run. rewrite !get_not_null by done.
  eexists. split; [done|]. split.
  - intros key. rewrite member_object_of. unfold food_fields. simpl.
    rewrite !elem_of_cons, elem_of_nil.
    repeat (destruct (decide (_ = key)) as [<-|?];
            [split; [intros _; eauto 10|intros _; by eexists]|]).
    split; [by intros [? ?]|]. intros [?|[?|[?|[?|[?|[]]]]]]; by subst.
  - intros key Hkey Htruthy. rewrite member_object_of. simpl.
    unfold food_fields in Hkey. rewrite !elem_of_cons, elem_of_nil in Hkey.
    repeat (destruct (decide (_ = key)) as [<-|?];
            [unfold or_else; rewrite Htruthy;
             by destruct (member _ food)|]).
    destruct Hkey as [?|[?|[?|[?|[?|[]]]]]]; by subst.
Qed.

Lemma advice_items_run (items : list value) (w : World number) :
  mapM advice_item items w = (Rejected TypeError, w) ∨
  ∃ converted, mapM advice_item items w = (Resolved converted, w) ∧
    Forall food_shaped converted ∧ length converted = length items.
Proof.
  induction items as [|food items IH]; simpl.
  { right. exists []. by split. }
  run. destruct (advice_item_run food w) as [->|(item & -> & Hitem & _)]; [by left|].
  destruct IH as [->|(converted & -> & Hall & Hlength)]; [by left|].
  right. exists (item :: converted). split; [done|]. split; [by constructor|].
  simpl. by rewrite Hlength.
Qed.

Lemma advice_items_of_log_run (log : value) (w : World number) :
  advice_items_of_log log w = (Rejected TypeError, w) ∨
  ∃ converted, advice_items_of_log log w = (Resolved converted, w) ∧
    Forall food_shaped converted.
Proof.
  pose proof advice_items_run as Hitems.
  unfold advice_items_of_log. run.
  destruct (get_cases log "foods" w) as [->| ->]; [by left|].
  destruct (truthy (member "foods" log)); [|right; by exists []].
  destruct (member "foods" log) as [[| | | |items|]|]; try by left.
  destruct (Hitems items w) as [->|(converted & -> & Hall & _)]; eauto.
Qed.

(** X20. Building the food log of the advice request touches nothing
    (no request, no console line, no alert): it throws a TypeError or
    yields a list in which every item is an object with exactly the
    five fields name, calories, protein_g, carbs_g and fat_g, whatever
    the stored foods held. *)
Theorem foodLogItems_shape (foodLogsResponse : value) (w : World number) :
  foodLogItems foodLogsResponse w = (Rejected TypeError, w) ∨
  ∃ items, foodLogItems foodLogsResponse w = (Resolved items, w) ∧
    Forall food_shaped items.
Proof.
  destruct foodLogsResponse as [| | | |logs|]; try by left.
  assert (Hlogs : mapM advice_items_of_log logs w = (Rejected TypeError, w) ∨
    ∃ groups, mapM advice_items_of_log logs w = (Resolved groups, w) ∧
      Forall (Forall food_shaped) groups).
  { induction logs as [|log logs IH]; simpl.
    { right. by exists []. }
    run. destruct (advice_items_of_log_run log w) as [->|(converted & -> & Hall)];
      [by left|].
    destruct IH as [->|(groups & -> & Hgroups)]; [by left|].
    right. exists (converted :: groups). split; [done|]. by constructor. }
  unfold foodLogItems. run.
  destruct Hlogs as [->|(groups & -> & Hgroups)]; [by left|].
  right. eexists. split; [done|].
  induction Hgroups as [|group groups Hgroup _ IH]; simpl; [done|].
  by apply Forall_app.
Qed.



(** *** What [saveMeal] sends *)


End Client.

End RN.

(** ** Statements about both clients *)

Section Clients.

Import AINUT.

Context {number : Type}.

(** The platform of the SwiftUI client. *)
Variable URL_init : string → option string.
Variable URLSession_data :
  list (URLRequest number) → URLRequest number → Error + (Data number * URLResponse).
Variable foundationDescription : Error → string.
Variable boundary : string.

(** The platform of the React Native client. *)
Variable number_falsy : number → bool.
Variable fetch : list (string * RN.Config number) → string → RN.Config number
                 → option (RN.Response number).

(** C1, as the clients have it. In the SwiftUI client a call of
    [performRequest] with [requiresAuth] set and no stored token sends
    nothing; it throws notAuthenticated, or invalidURL when the endpoint
    does not make a URL, the guard that comes first. The React Native
    [apiRequest] has no such flag and reads no token: every call sends
    one request. *)
Theorem auth_required_without_token
    (T U : Type) (CT : Codable T) (CU : Codable U)
    (endpoint method : string) (body : option T) (w : World number)
    (rn_endpoint : string) (options : RN.Options number) (rw : RN.World number) :
  authToken (self w) = None →
  performRequest (U := U) URL_init URLSession_data endpoint method body true w
    = (Throw (match URL_init (baseURL +:+ endpoint) with
              | Some _ => networkError notAuthenticated
              | None => networkError invalidURL
              end), w) ∧
  RN.network (RN.apiRequest number_falsy fetch rn_endpoint options rw).2
    = RN.network rw ++ [(RN.API_BASE_URL +:+ rn_endpoint, RN.config_of options)].
Proof.
  intros Hnone. split.
  - by apply performRequest_unauthenticated.
  - by rewrite RN.apiRequest_run.
Qed.

(** C2, as the clients have it. For a response whose status is not
    2xx: the SwiftUI [performRequest] throws apiError with message [X]
    when the body is a JSON object with the string [X] as [detail], and
    otherwise serverError, whose description is Server error: followed
    by the status code in decimal. The React Native [apiRequest] rejects
    with an Error of message [X] when the body is such an object and [X]
    is not empty, with the fixed message API request failed when the
    body is an object without [detail], and with the parse error of
    [response.json()] when the body is not JSON. *)
Theorem error_of_failed_response
    (T U : Type) (CT : Codable T) (CU : Codable U)
    (endpoint method : string) (body : option T) (requiresAuth : bool)
    (w : World number) (u : string) (data : Data number) (statusCode : Z)
    (rn_endpoint : string) (options : RN.Options number) (rw : RN.World number)
    (response : RN.Response number) :
  URL_init (baseURL +:+ endpoint) = Some u →
  (requiresAuth = true → is_Some (authToken (self w))) →
  (∀ b, body = Some b → is_Some (toJSON b)) →
  URLSession_data (wire w)
    (request_for u method (if requiresAuth then authToken (self w) else None)
       (JSONData <$> (body ≫= toJSON)))
    = inr (data, HTTPURLResponse statusCode) →
  ¬ (200 ≤ statusCode ≤ 299)%Z →
  fetch (RN.network rw) (RN.API_BASE_URL +:+ rn_endpoint) (RN.config_of options)
    = Some response →
  ¬ (200 ≤ RN.status response ≤ 299)%Z →
  let result :=
    (performRequest (U := U) URL_init URLSession_data endpoint method body requiresAuth w).1 in
  let rn_result := (RN.apiRequest number_falsy fetch rn_endpoint options rw).1 in
  (∀ X, has_detail data X →
     result = Throw (apiError X) ∧
     localizedDescription foundationDescription (apiError X) = X) ∧
  ((¬ ∃ X, has_detail data X) →
     result = Throw (serverError statusCode) ∧
     localizedDescription foundationDescription (serverError statusCode)
       = "Server error: " +:+ pretty statusCode ∧
     ∀ code, localizedDescription foundationDescription (serverError code)
             = localizedDescription foundationDescription (serverError statusCode) →
             code = statusCode) ∧
  (∀ X, RN.has_detail (RN.response_body response) X → X ≠ "" →
     rn_result = RN.Rejected (RN.Error (JStr X))) ∧
  (∀ members, RN.response_body response = JSONData (JObj members) →
     members !! "detail" = None →
     rn_result = RN.Rejected (RN.Error (JStr "API request failed"))) ∧
  (parsed (RN.response_body response) = None → rn_result = RN.Rejected RN.SyntaxError).
Proof.
  intros Hu Htoken Hbody Hanswer Hstatus Hfetch Hrn result rn_result.
  subst result rn_result.
  rewrite (performRequest_sent URL_init URLSession_data endpoint method body requiresAuth
             w u Hu Htoken Hbody).
  rewrite RN.apiRequest_run. cbn [fst]. rewrite Hanswer, Hfetch.
  assert (Hnot : ¬ (statusCode = 200%Z ∨ statusCode = 201%Z)) by lia.
  destruct (outcome_failure (U := U) data statusCode Hnot) as [Hdetail Hnone].
  assert (Hok : RN.ok response = false) by (unfold RN.ok; by rewrite bool_decide_eq_false_2).
  destruct (RN.api_outcome_not_ok number_falsy response Hok) as (Hrn1 & Hrn2 & Hrn3).
  repeat split; eauto.
  intros code. apply serverError_description_inj.
Qed.

(** Swift's [Double] and [UIImage], JavaScript's [Date], and the rest
    of the two platforms. *)
Context {Double UIImage Date : Type}.
Variable Double_init : Z → Double.
Context `{!Codable (number := number) (SaveFoodLogRequest (Double := Double))}.
Context `{!Codable (number := number) SaveFoodLogResponse}.
Variable today : string.

(** C3, as the clients have it. Of a response that was received:
    [performRequest] returns exactly when the status is 200 or 201 and
    the body decodes to the expected shape, and then it returns the
    decoded body; [uploadImage] returns exactly when the status is 200
    and the body decodes; the React Native [apiRequest] resolves exactly
    when the status is in 200..299 and the body is JSON. *)
Theorem success_statuses
    (T U : Type) (CT : Codable T) (CU : Codable U)
    (endpoint method : string) (body : option T) (requiresAuth : bool)
    (w : World number) (u : string) (data : Data number) (statusCode : Z)
    (uw : World number) (token uu imageData imageType : string)
    (rn_endpoint : string) (options : RN.Options number) (rw : RN.World number)
    (response : RN.Response number) :
  URL_init (baseURL +:+ endpoint) = Some u →
  (requiresAuth = true → is_Some (authToken (self w))) →
  (∀ b, body = Some b → is_Some (toJSON b)) →
  URLSession_data (wire w)
    (request_for u method (if requiresAuth then authToken (self w) else None)
       (JSONData <$> (body ≫= toJSON)))
    = inr (data, HTTPURLResponse statusCode) →
  authToken (self uw) = Some token →
  URL_init (baseURL +:+ "/upload-user-image") = Some uu →
  fetch (RN.network rw) (RN.API_BASE_URL +:+ rn_endpoint) (RN.config_of options)
    = Some response →
  (∀ decoded : U,
     (performRequest URL_init URLSession_data endpoint method body requiresAuth w).1
       = Return decoded ↔
     (statusCode = 200%Z ∨ statusCode = 201%Z) ∧ JSONDecoder_decode data = Some decoded) ∧
  (∃ request,
     wire (uploadImage URL_init URLSession_data boundary imageData imageType uw).2
       = wire uw ++ [request] ∧
     ∀ udata ustatus location,
       URLSession_data (wire uw) request = inr (udata, HTTPURLResponse ustatus) →
       (uploadImage URL_init URLSession_data boundary imageData imageType uw).1
         = Return location ↔
       ustatus = 200%Z ∧
       ∃ uploadResponse,
         JSONDecoder_decode (H := Codable_Strings) udata = Some uploadResponse ∧
         location = default "" (uploadResponse !! "url")) ∧
  (∀ rdata,
     (RN.apiRequest number_falsy fetch rn_endpoint options rw).1 = RN.Resolved rdata ↔
     (200 ≤ RN.status response ≤ 299)%Z ∧ parsed (RN.response_body response) = Some rdata).
Proof.
  intros Hu Htoken Hbody Hanswer Hstored Huu Hfetch. split; [|split].
  - intros decoded.
    rewrite (performRequest_sent URL_init URLSession_data endpoint method body requiresAuth
               w u Hu Htoken Hbody).
    cbn [fst]. rewrite Hanswer. apply outcome_success.
  - destruct (uploadImage_sent URL_init URLSession_data boundary uw token uu
                imageData imageType Hstored Huu) as (request & _ & _ & Hrun).
    exists request. rewrite Hrun. cbn [fst snd wire]. split; [done|].
    intros udata ustatus location ->. apply upload_outcome_success.
  - intros rdata. rewrite RN.apiRequest_run. cbn [fst]. rewrite Hfetch.
    apply RN.api_outcome_resolved.
Qed.

(** C5, as the clients have it. POST /food-logs answered 401 with the
    body {detail: Token expired}. SwiftUI: [saveFoodLog] throws apiError
    of description Token expired and leaves the manager as it was; the
    view shows Failed to save meal: Token expired and keeps the analysed
    meal and its form. React Native: the error of [apiRequest] has the
    message Token expired and goes to the console; the alert shown is
    the fixed text Failed to save meal; the Analyze tab and the food-log
    list of the Log tab keep their state. *)
Theorem token_expired_on_save
    (w : World number) (user : User) (token u mealType : string) (data : Data number)
    (view : MealAnalysisView (Double := Double) (UIImage := UIImage)) (meal : MealResponse)
    (auth : RN.AuthContext) (rn_mealType rn_today : string)
    (tabs : RN.MainTabs (number := number) (Date := Date)) (rw : RN.World number)
    (response : RN.Response number) :
  let log := saveFoodLog_body today user mealType (to_item Double_init <$> foods meal)
               (Double_init (totalCalories meal)) in
  let request := request_for u "POST" (Some token) (JSONData <$> toJSON log) in
  currentUser (self w) = Some user →
  authToken (self w) = Some token →
  URL_init (baseURL +:+ "/food-logs") = Some u →
  is_Some (toJSON log) →
  URLSession_data (wire w) request = inr (data, HTTPURLResponse 401) →
  has_detail data "Token expired" →
  mealResponse view = Some meal →
  (∀ config, RN.method config = Some "POST" →
     fetch (RN.network rw) (RN.API_BASE_URL +:+ "/food-logs") config = Some response) →
  RN.status response = 401%Z →
  RN.response_body response = JSONData (JObj {[ "detail" := JStr "Token expired" ]}) →
  RN.truthy number_falsy (Some (RN.mealResult (RN.Analyze tabs))) = true →
  (saveFoodLog URL_init URLSession_data today mealType (to_item Double_init <$> foods meal)
     (Double_init (totalCalories meal)) w
     = (Throw (apiError "Token expired"),
        {| self := self w; wire := wire w ++ [request] |}) ∧
   localizedDescription foundationDescription (apiError "Token expired") = "Token expired" ∧
   saveMeal URL_init URLSession_data foundationDescription Double_init today mealType view w
     = ({| selectedImage := selectedImage view; userInput := userInput view;
           corrections := corrections view; mealResponse := mealResponse view;
           isAnalyzing := isAnalyzing view;
           view_errorMessage := Some "Failed to save meal: Token expired" |},
        {| self := self w; wire := wire w ++ [request] |})) ∧
  ∃ rw',
    RN.Analyze_saveMeal number_falsy fetch rn_today auth rn_mealType tabs rw = (tabs, rw') ∧
    RN.alerts rw' = RN.alerts rw ++ [("Error", "Failed to save meal")] ∧
    ((RN.network rw' = RN.network rw ∧
      RN.console rw' = RN.console rw ++ [("Save error:", RN.TypeError)]) ∨
     (∃ config,
        RN.network rw' = RN.network rw ++ [(RN.API_BASE_URL +:+ "/food-logs", config)] ∧
        RN.method config = Some "POST" ∧
        RN.headers config !! "Authorization" = Some (RN.Bearer (RN.token auth)) ∧
        RN.console rw' = RN.console rw
          ++ [("API request error:", RN.Error (JStr "Token expired"));
              ("Save error:", RN.Error (JStr "Token expired"))])).
Proof.
  intros log request Huser Htoken Hu Hlog Hanswer Hdetail Hmeal
    Hfetch Hstatus Hbody Htruthy.
  assert (Hsave :
    saveFoodLog URL_init URLSession_data today mealType (to_item Double_init <$> foods meal)
      (Double_init (totalCalories meal)) w
    = (Throw (apiError "Token expired"),
       {| self := self w; wire := wire w ++ [request] |})).
  { rewrite (saveFoodLog_sent URL_init URLSession_data today w user token u mealType
               _ _ Huser Htoken Hu Hlog).
    fold log. fold request. rewrite Hanswer.
    destruct (outcome_failure (U := SaveFoodLogResponse) data 401) as [Hthrow _]; [lia|].
    by rewrite (Hthrow _ Hdetail). }
  split; [split; [done|split; [done|]]|].
  - by rewrite (saveMeal_failed _ _ _ _ _ w _ view meal mealType _ Hmeal Hsave).
  - destruct (RN.saveMeal_token_expired number_falsy fetch rn_today auth rn_mealType
                (RN.Analyze tabs) rw response Hfetch Hstatus Hbody Htruthy)
      as (rw' & Hrun & Halert & Hlogs).
    exists rw'. split; [|done]. by apply RN.Analyze_saveMeal_tabs.
Qed.

End Clients.

(** ** Worked scenarios

    Both clients run against small concrete platforms: JSON numbers are
    integers, every string makes a URL, and a server answers by URL. *)

Module Scenarios.

Import AINUT.

Definition URL_init (s : string) : option string := Some s.

Definition foundationDescription (error : Error) : string :=
  "The operation could not be completed.".

(** A server that answers by URL, and is unreachable elsewhere. *)
Definition answers (table : gmap string (Data Z * Z))
    : list (URLRequest Z) → URLRequest Z → Error + (Data Z * URLResponse) :=
  λ _ request,
    match table !! url request with
    | Some (data, statusCode) => inr (data, HTTPURLResponse statusCode)
    | None => inl (URLError "offline")
    end.

Definition token_body : Data Z :=
  JSONData (JObj (<[ "access_token" := JStr "t1" ]> {[ "token_type" := JStr "bearer" ]})).

Definition alice : User :=
  {| id := 1; username := "alice"; email := "alice@example.org"; isActive := true;
     createdAt := "2024-01-01T00:00:00" |}.

Definition alice_body : Data Z :=
  JSONData (JObj (<[ "id" := JNum 1%Z ]>
                 (<[ "username" := JStr "alice" ]>
                 (<[ "email" := JStr "alice@example.org" ]>
                 (<[ "is_active" := JBool true ]>
                    {[ "created_at" := JStr "2024-01-01T00:00:00" ]}))))).

Definition expired_body : Data Z :=
  JSONData (JObj {[ "detail" := JStr "Token expired" ]}).

(** Login succeeds and so does the fetch of the current user. *)
Definition healthy : list (URLRequest Z) → URLRequest Z → Error + (Data Z * URLResponse) :=
  answers (<[ baseURL +:+ "/auth/login" := (token_body, 200%Z) ]>
             {[ baseURL +:+ "/auth/me" := (alice_body, 200%Z) ]}).

(** Login succeeds, the fetch of the current user is answered 500. *)
Definition failing_me : list (URLRequest Z) → URLRequest Z → Error + (Data Z * URLResponse) :=
  answers (<[ baseURL +:+ "/auth/login" := (token_body, 200%Z) ]>
             {[ baseURL +:+ "/auth/me" := (RawData "Internal Server Error", 500%Z) ]}).

(** Every call that carries the token is answered 401. *)
Definition expired : list (URLRequest Z) → URLRequest Z → Error + (Data Z * URLResponse) :=
  answers (<[ baseURL +:+ "/auth/me" := (expired_body, 401%Z) ]>
             {[ baseURL +:+ "/food-logs" := (expired_body, 401%Z) ]}).

(** The upload is answered 201 with a location. *)
Definition created : list (URLRequest Z) → URLRequest Z → Error + (Data Z * URLResponse) :=
  λ _ _, inr (JSONData (JObj {[ "url" := JStr "https://cdn.example.org/1.jpg" ]}),
              HTTPURLResponse 201).

(** The upload is answered 200 with an object that has no [url]. *)
Definition no_location : list (URLRequest Z) → URLRequest Z → Error + (Data Z * URLResponse) :=
  λ _ _, inr (JSONData (JObj {[ "message" := JStr "stored" ]}), HTTPURLResponse 200).

Definition fresh : NetworkManager :=
  {| isAuthenticated := false; currentUser := None; isLoading := false;
     errorMessage := None; authToken := None |}.

Definition signed_in : NetworkManager :=
  {| isAuthenticated := true; currentUser := Some alice; isLoading := false;
     errorMessage := None; authToken := Some "t1" |}.

Definition at_launch : World Z := {| self := fresh; wire := [] |}.
Definition in_session : World Z := {| self := signed_in; wire := [] |}.

Definition Codable_User_Z : Codable User := Codable_User (number := Z) Some (λ z, z).

(** C7 as stated fails: after the token answer of the scenario, a
    failed GET /auth/me leaves [login] with no stored token and
    [isAuthenticated] false. *)
Lemma login_then_failed_me :
  let w' := (login Some (λ z, z) URL_init failing_me foundationDescription
               "alice" "pw" at_launch).2 in
  authToken (self w') = None ∧ isAuthenticated (self w') = false ∧
  (httpBody <$> wire w' !! 0%nat)
    = Some (Some (JSONData (JObj (<[ "username" := JStr "alice" ]>
                                    {[ "password" := JStr "pw" ]})))).
Proof. vm_compute. done. Qed.

Lemma login_stores_token_witness :
  let w' := (login Some (λ z, z) URL_init healthy foundationDescription
               "alice" "pw" at_launch).2 in
  authToken (self w') = Some "t1" ∧ isAuthenticated (self w') = true.
Proof.
  destruct (login_stores_token Some (λ z, z) URL_init healthy foundationDescription
              at_launch (baseURL +:+ "/auth/login") (baseURL +:+ "/auth/me") 200%Z)
    as (_ & _ & Hstored & _); [reflexivity|reflexivity|reflexivity|by left|].
  destruct (Hstored alice) as (Htoken & Hflag & _); [reflexivity|].
  exact (conj Htoken Hflag).
Defined.

Lemma getCurrentUser_failure_witness :
  let w' := (getCurrentUser Some (λ z, z) URL_init expired in_session).2 in
  authToken (self w') = None ∧ isAuthenticated (self w') = false ∧
  currentUser (self w') = None.
Proof.
  refine (proj2 (getCurrentUser_failure_logs_out Some (λ z, z) URL_init expired in_session
                   {| self := signed_in;
                      wire := [me_request (baseURL +:+ "/auth/me") "t1"] |}
                   (apiError "Token expired") _)).
  reflexivity.
Defined.

Lemma credential_round_trip_witness :
  authToken (self (login Some (λ z, z) URL_init healthy foundationDescription
                     "alice" "pw" at_launch).2) = Some "t1" ∧
  performRequest (H := Codable_Any) (H0 := Codable_User_Z) URL_init healthy
    "/auth/me" "GET" None true (logout in_session).2
    = (Throw notAuthenticated, (logout in_session).2).
Proof.
  destruct (credential_round_trip Some (λ z, z) URL_init healthy foundationDescription
              at_launch "alice" "pw" "t1" "bearer"
              (baseURL +:+ "/auth/login") (baseURL +:+ "/auth/me") token_body 200%Z)
    as (_ & Hstored & Hcalls).
  - reflexivity.
  - reflexivity.
  - reflexivity.
  - by left.
  - eexists. split; [reflexivity|]. split; reflexivity.
  - split.
    + apply (Hstored alice). reflexivity.
    + destruct (Hcalls (gmap string (json Z)) User Codable_Any Codable_User_Z in_session
                  "/auth/me" "GET" None (baseURL +:+ "/auth/me")) as [_ Hout].
      * reflexivity.
      * reflexivity.
      * intros b [=].
      * exact Hout.
Defined.

(** C3 as stated fails: [uploadImage] treats 201 as a failure. *)
Lemma uploadImage_201_throws :
  (uploadImage URL_init created "boundary" "JPEG" "meal" in_session).1
    = Throw (serverError 201).
Proof. vm_compute. done. Qed.

Lemma uploadImage_without_url_witness :
  (uploadImage URL_init no_location "boundary" "JPEG" "meal" in_session).1 = Return "".
Proof.
  destruct (uploadImage_without_url URL_init no_location "boundary" in_session "t1"
              (baseURL +:+ "/upload-user-image") "JPEG" "meal" eq_refl eq_refl)
    as (request & _ & Hspec).
  destruct (Hspec (JSONData (JObj {[ "message" := JStr "stored" ]})) 200%Z eq_refl)
    as [Hempty _].
  apply (Hempty eq_refl {[ "message" := JStr "stored" ]} eq_refl).
  - apply map_Forall_singleton. by eexists.
  - reflexivity.
Defined.

(** *** The React Native side *)

Definition number_falsy (n : Z) : bool := bool_decide (n = 0%Z).

(** Addition of two numbers; the scenarios add nothing else. *)
Definition js_add (a : json Z) (b : option (json Z)) : json Z :=
  match a, b with
  | JNum x, Some (JNum y) => JNum (x + y)%Z
  | _, _ => JNull
  end.

Definition ToString (v : json Z) : string := "[object Object]".

(** A server that answers by URL, and is unreachable elsewhere. *)
Definition serves (table : gmap string (RN.Response Z))
    : list (string * RN.Config Z) → string → RN.Config Z → option (RN.Response Z) :=
  λ _ url _, table !! url.

Definition idle : RN.World Z :=
  {| RN.network := []; RN.console := []; RN.alerts := [] |}.

Definition food_logs_of_alice : string :=
  RN.API_BASE_URL +:+ "/users/alice/food-logs?date_filter=2024-01-01&limit=50".

Definition no_logs : list (string * RN.Config Z) → string → RN.Config Z
                     → option (RN.Response Z) :=
  serves {[ food_logs_of_alice := {| RN.status := 200; RN.response_body := JSONData (JArr []) |} ]}.

Definition rejecting (statusCode : Z) (data : Data Z)
    : list (string * RN.Config Z) → string → RN.Config Z → option (RN.Response Z) :=
  serves {[ RN.API_BASE_URL +:+ "/food-logs"
              := {| RN.status := statusCode; RN.response_body := data |} ]}.

Definition with_header (token : option string) : RN.Options Z :=
  {| RN.options_method := None; RN.options_body := None;
     RN.options_headers := Some {[ "Authorization" := RN.Bearer token ]} |}.

(** C1 as stated fails: with no token to put in the header the list
    call still sends its request, and it succeeds. *)
Lemma apiRequest_sends_without_token :
  RN.apiRequest number_falsy no_logs
    "/users/alice/food-logs?date_filter=2024-01-01&limit=50" (with_header None) idle
  = (RN.Resolved (JArr []),
     {| RN.network :=
          [(food_logs_of_alice,
            {| RN.method := None; RN.body := None;
               RN.headers := <[ "Authorization" := "Bearer null" ]>
                               {[ "Content-Type" := "application/json" ]} |})];
        RN.console := []; RN.alerts := [] |}).
Proof. vm_compute. done. Qed.

(** Where [URL(string:)] refuses a string with a space, the URL guard
    of [performRequest] answers before the token guard. *)
Definition no_space_URL_init (s : string) : option string :=
  if bool_decide (Ascii.ascii_of_nat 32 ∈ String.list_ascii_of_string s) then None
  else Some s.

Lemma invalid_endpoint_reported_first :
  performRequest (H := Codable_Any) (H0 := Codable_User_Z) no_space_URL_init expired
    "/users/john doe/profile" "GET" None true at_launch
  = (Throw invalidURL, at_launch).
Proof. vm_compute. done. Qed.

Lemma auth_required_without_token_witness :
  performRequest (H := Codable_Any) (H0 := Codable_User_Z) URL_init expired
    "/auth/me" "GET" None true at_launch
  = (Throw notAuthenticated, at_launch).
Proof.
  exact (proj1 (auth_required_without_token URL_init expired number_falsy no_logs
                  (gmap string (json Z)) User Codable_Any Codable_User_Z
                  "/auth/me" "GET" None at_launch "/food-logs" (with_header None) idle
                  eq_refl)).
Defined.

(** C2 as stated fails: without a [detail] the message of the React
    Native client is the same for 500 and for 404. *)
Lemma status_lost_in_generic_message :
  (RN.apiRequest number_falsy (rejecting 500 (JSONData (JObj ∅))) "/food-logs"
     (with_header (Some "t1")) idle).1
    = RN.Rejected (RN.Error (JStr "API request failed")) ∧
  (RN.apiRequest number_falsy (rejecting 404 (JSONData (JObj ∅))) "/food-logs"
     (with_header (Some "t1")) idle).1
    = RN.Rejected (RN.Error (JStr "API request failed")).
Proof. vm_compute. done. Qed.

Lemma error_of_failed_response_witness :
  (performRequest (H := Codable_Any) (H0 := Codable_User_Z) URL_init expired
     "/auth/me" "GET" None true in_session).1 = Throw (apiError "Token expired") ∧
  (RN.apiRequest number_falsy (rejecting 401 expired_body) "/food-logs"
     (with_header (Some "t1")) idle).1 = RN.Rejected (RN.Error (JStr "Token expired")).
Proof.
  destruct (error_of_failed_response URL_init expired foundationDescription number_falsy
              (rejecting 401 expired_body)
              (gmap string (json Z)) User Codable_Any Codable_User_Z
              "/auth/me" "GET" None true in_session (baseURL +:+ "/auth/me")
              expired_body 401%Z "/food-logs" (with_header (Some "t1")) idle
              {| RN.status := 401; RN.response_body := expired_body |})
    as (Hswift & _ & Hrn & _).
  - reflexivity.
  - intros _. by eexists.
  - intros b [=].
  - reflexivity.
  - lia.
  - reflexivity.
  - simpl. lia.
  - split.
    + apply Hswift. eexists. split; reflexivity.
    + apply Hrn; [|done]. eexists. split; reflexivity.
Defined.

Lemma success_statuses_witness :
  (performRequest (H := Codable_UserLogin) (H0 := Codable_Token) URL_init healthy
     "/auth/login" "POST" (Some {| login_username := "alice"; login_password := "pw" |})
     false at_launch).1
    = Return {| accessToken := "t1"; tokenType := "bearer" |}.
Proof.
  destruct (success_statuses URL_init healthy "boundary" number_falsy no_logs
              UserLogin Token Codable_UserLogin Codable_Token
              "/auth/login" "POST"
              (Some {| login_username := "alice"; login_password := "pw" |}) false
              at_launch (baseURL +:+ "/auth/login") token_body 200%Z
              in_session "t1" (baseURL +:+ "/upload-user-image") "JPEG" "meal"
              "/users/alice/food-logs?date_filter=2024-01-01&limit=50"
              (with_header (Some "t1")) idle
              {| RN.status := 200; RN.response_body := JSONData (JArr []) |})
    as (Hswift & _ & _).
  - reflexivity.
  - intros [=].
  - intros b [= <-]. by eexists.
  - reflexivity.
  - reflexivity.
  - reflexivity.
  - reflexivity.
  - apply Hswift. split; [by left|reflexivity].
Defined.

Definition alice_logs_in : RN.AuthContext (number := Z) :=
  {| RN.user := JObj {[ "username" := JStr "alice" ]}; RN.token := Some "t1" |}.



(** *** Saving a meal with an expired token *)

(** The food-log messages with [Double] read as an integer. The client
    only encodes the request and only decodes the response. *)
Definition item_json (item : FoodLogItem (Double := Z)) : json Z :=
  JObj (<[ "name" := JStr (name item) ]>
       (<[ "calories" := JNum (calories item) ]>
       (<[ "protein_g" := JNum (proteinG item) ]>
       (<[ "carbs_g" := JNum (carbsG item) ]>
          {[ "fat_g" := JNum (fatG item) ]})))).

Definition Codable_SaveFoodLogRequest : Codable (number := Z) (SaveFoodLogRequest (Double := Z)) :=
  {| toJSON log :=
       Some (JObj (<[ "user_id" := JStr (request_userId log) ]>
                  (<[ "date_string" := JStr (request_dateString log) ]>
                  (<[ "meal_time" := JStr (request_mealTime log) ]>
                  (<[ "foods" := JArr (item_json <$> request_foods log) ]>
                     {[ "total_calories" := JNum (request_totalCalories log) ]})))));
     fromJSON _ := None |}.

Definition achievement_of (j : json Z) : option AchievementResponse :=
  n ← member "name" j ≫= as_string;
  d ← member "description" j ≫= as_string;
  p ← member "points" j ≫= (λ v, match v with JNum z => Some z | _ => None end);
  b ← member "badge" j ≫= as_string;
  Some {| achievement_name := n; achievement_description := d; achievement_points := p;
          achievement_badge := b |}.

Definition Codable_SaveFoodLogResponse : Codable (number := Z) SaveFoodLogResponse :=
  {| toJSON _ := None;
     fromJSON j :=
       m ← member "message" j ≫= as_string;
       l ← member "log_id" j ≫= as_string;
       a ← member "achievements" j
             ≫= (λ v, match v with JArr items => mapM achievement_of items | _ => None end);
       Some {| message := m; logId := l; achievements := a |} |}.

Definition oatmeal : MealResponse (Double := Z) :=
  {| mealName := "Oatmeal"; mealType := "breakfast";
     foods := [{| food_name := "oats"; food_calories := 150; food_proteinG := 5%Z;
                  food_carbsG := 27%Z; food_fatG := 3%Z |}];
     totalCalories := 150; analysisMethod := "text" |}.

Definition analysed_view : MealAnalysisView (Double := Z) (UIImage := unit) :=
  {| selectedImage := None; userInput := "a bowl of oats"; corrections := "";
     mealResponse := Some oatmeal; isAnalyzing := false; view_errorMessage := None |}.

Definition oatmeal_result : json Z :=
  JObj (<[ "meal_name" := JStr "Oatmeal" ]>
       (<[ "foods" := JArr [JObj (<[ "name" := JStr "oats" ]> {[ "calories" := JNum 150%Z ]})] ]>
          {[ "total_calories" := JNum 150%Z ]})).

Definition analysed_screen : RN.MealAnalysisScreen (number := Z) :=
  {| RN.selectedImage := JNull; RN.userInput := "a bowl of oats";
     RN.mealResult := oatmeal_result; RN.isAnalyzing := false;
     RN.showSaveOptions := true |}.

Definition tabs : RN.MainTabs (number := Z) (Date := string) :=
  {| RN.Analyze := analysed_screen;
     RN.Log := {| RN.foodLogs := JArr [JObj {[ "total_calories" := JNum 300%Z ]}];
                  RN.selectedDate := "2024-01-01"; RN.refreshing := false;
                  RN.loading := false |} |}.

(** C5 as stated fails: the message shown by the React Native screen is
    the fixed text of its alert; Token expired only reaches the console. *)
Lemma saveMeal_alert_is_fixed :
  let w' := (RN.saveMeal number_falsy (rejecting 401 expired_body) "2024-01-01"
               alice_logs_in "breakfast" analysed_screen idle).2 in
  RN.alerts w' = [("Error", "Failed to save meal")] ∧
  RN.console w' = [("API request error:", RN.Error (JStr "Token expired"));
                   ("Save error:", RN.Error (JStr "Token expired"))].
Proof. vm_compute. done. Qed.

Lemma token_expired_on_save_witness :
  (saveMeal (Codable0 := Codable_SaveFoodLogRequest) (Codable1 := Codable_SaveFoodLogResponse)
     URL_init expired foundationDescription (λ z, z) "2024-01-01" "breakfast"
     analysed_view in_session).1
    = {| selectedImage := None; userInput := "a bowl of oats"; corrections := "";
         mealResponse := Some oatmeal; isAnalyzing := false;
         view_errorMessage := Some "Failed to save meal: Token expired" |} ∧
  (RN.Analyze_saveMeal number_falsy (rejecting 401 expired_body) "2024-01-01"
     alice_logs_in "breakfast" tabs idle).1 = tabs.
Proof.
  destruct (token_expired_on_save
              (Codable0 := Codable_SaveFoodLogRequest)
              (Codable1 := Codable_SaveFoodLogResponse)
              URL_init expired foundationDescription number_falsy
              (rejecting 401 expired_body) (λ z, z) "2024-01-01"
              in_session alice "t1" (baseURL +:+ "/food-logs") "breakfast" expired_body
              analysed_view oatmeal alice_logs_in "breakfast" "2024-01-01" tabs idle
              {| RN.status := 401; RN.response_body := expired_body |})
    as [(_ & _ & Hview) (rw' & Htabs & _)].
  - reflexivity.
  - reflexivity.
  - reflexivity.
  - by eexists.
  - reflexivity.
  - eexists. split; reflexivity.
  - reflexivity.
  - intros config _. reflexivity.
  - reflexivity.
  - reflexivity.
  - reflexivity.
  - rewrite Hview, Htabs. split; reflexivity.
Defined.

(** *** More scenarios of the SwiftUI client *)

Lemma public_call_carries_no_token_witness :
  allHTTPHeaderFields (login_request (number := Z) (baseURL +:+ "/auth/login") "alice" "pw")
    !! "Authorization" = None.
Proof.
  refine (proj1 (public_call_carries_no_token URL_init healthy
                   (H := Codable_UserLogin) (H0 := Codable_Token) "/auth/login" "POST"
                   (Some {| login_username := "alice"; login_password := "pw" |})
                   in_session (login_request (number := Z) (baseURL +:+ "/auth/login") "alice" "pw") _)).
  reflexivity.
Defined.

(** Signing in while the sign-in endpoint is out of reach. *)
Lemma login_failure_keeps_session_witness :
  login Some (λ z, z) URL_init expired foundationDescription "alice" "pw" in_session
  = (Return (),
     {| self := {| isAuthenticated := true; currentUser := Some alice; isLoading := false;
                   errorMessage := Some "The operation could not be completed.";
                   authToken := Some "t1" |};
        wire := [login_request (number := Z) (baseURL +:+ "/auth/login") "alice" "pw"] |}).
Proof.
  refine (proj1 (login_failure_keeps_session Some (λ z, z) URL_init expired
                   foundationDescription "alice" "pw" in_session
                   {| self := signed_in;
                      wire := [login_request (number := Z) (baseURL +:+ "/auth/login") "alice" "pw"] |}
                   (URLError "offline") _)).
  reflexivity.
Defined.

(** Registration is answered 201 with the new user. *)
Definition registering : list (URLRequest Z) → URLRequest Z → Error + (Data Z * URLResponse) :=
  answers (<[ baseURL +:+ "/auth/register" := (alice_body, 201%Z) ]>
          (<[ baseURL +:+ "/auth/login" := (token_body, 200%Z) ]>
             {[ baseURL +:+ "/auth/me" := (alice_body, 200%Z) ]})).

Definition alice_registers : UserCreate :=
  {| create_username := "alice"; create_email := "alice@example.org";
     create_password := "pw" |}.

Lemma register_then_login_witness :
  register Some (λ z, z) URL_init registering foundationDescription
    "alice" "alice@example.org" "pw" at_launch
  = login Some (λ z, z) URL_init registering foundationDescription "alice" "pw"
      (performRequest (H := Codable_UserCreate) (H0 := Codable_User_Z) URL_init registering
         "/auth/register" "POST" (Some alice_registers) false at_launch).2.
Proof.
  refine (register_then_login Some (λ z, z) URL_init registering foundationDescription
            "alice" "alice@example.org" "pw" at_launch _ (Return alice) _).
  reflexivity.
Defined.

(** A [Double] that is whole comes back from the wire as an [Int]. *)
Lemma AnyCodable_round_trip_witness :
  AnyCodable_init_from (Double := Z) Some Some (JNum 150%Z) = AnyInt 150.
Proof.
  refine (AnyCodable_round_trip (Double := Z) Some (λ z, z) Some Some
            (AnyDouble 150%Z) (JNum 150%Z) _ _ _).
  - reflexivity.
  - intros d n [= ->]. reflexivity.
  - reflexivity.
Defined.

Definition stored_oats : gmap string (json Z) :=
  <[ "name" := JStr "oats" ]> {[ "calories" := JNum 150%Z ]}.

Definition breakfast_log : FoodLogResponse (Double := Z) :=
  {| log_logId := "log-1"; log_mealTime := "breakfast";
     log_foods := [AnyCodable_init_from (Double := Z) Some Some <$> stored_oats];
     log_totalCalories := 150%Z; log_createdAt := "2024-01-01T08:00:00";
     log_dateString := "2024-01-01" |}.

Definition stored_rice : gmap string (AnyCodable (Double := Z)) :=
  <[ "name" := AnyString "rice" ]> {[ "calories" := AnyDouble 130%Z ]}.

Definition lunch_log : FoodLogResponse (Double := Z) :=
  {| log_logId := "log-2"; log_mealTime := "lunch";
     log_foods := [AnyCodable_init_from (Double := Z) Some Some <$> stored_oats; stored_rice];
     log_totalCalories := 280%Z; log_createdAt := "2024-01-01T12:00:00";
     log_dateString := "2024-01-01" |}.

(** The oats, whose calories came back as an Int, are left out, alone
    and beside a food that is kept. *)
Lemma integral_calories_are_dropped_witness :
  convertToFoodLogItems (λ z, z) [breakfast_log] = [] ∧
  convertToFoodLogItems (λ z, z) [breakfast_log; lunch_log]
    = [{| name := "rice"; calories := 130%Z; proteinG := 0%Z; carbsG := 0%Z; fatG := 0%Z;
          micronutrients := None |}].
Proof.
  split.
  - refine (proj2 (proj2 (integral_calories_are_dropped (number := Z) Some (λ z, z) Some
                            [breakfast_log])) _).
    intros log food ->%list_elem_of_singleton ->%list_elem_of_singleton. reflexivity.
  - rewrite (proj1 (proj2 (integral_calories_are_dropped (number := Z) Some (λ z, z) Some
                             [breakfast_log; lunch_log]))).
    reflexivity.
Defined.

Definition food_of (j : json Z) : option (Food (Double := Z)) :=
  n ← member "name" j ≫= as_string;
  c ← member "calories" j ≫= (λ v, match v with JNum z => Some z | _ => None end);
  p ← member "protein_g" j ≫= (λ v, match v with JNum z => Some z | _ => None end);
  h ← member "carbs_g" j ≫= (λ v, match v with JNum z => Some z | _ => None end);
  f ← member "fat_g" j ≫= (λ v, match v with JNum z => Some z | _ => None end);
  Some {| food_name := n; food_calories := c; food_proteinG := p; food_carbsG := h;
          food_fatG := f |}.

Definition Codable_MealResponse : Codable (number := Z) (MealResponse (Double := Z)) :=
  {| toJSON _ := None;
     fromJSON j :=
       n ← member "meal_name" j ≫= as_string;
       t ← member "meal_type" j ≫= as_string;
       f ← member "foods" j
             ≫= (λ v, match v with JArr items => mapM food_of items | _ => None end);
       c ← member "total_calories" j
             ≫= (λ v, match v with JNum z => Some z | _ => None end);
       a ← member "analysis_method" j ≫= as_string;
       Some {| mealName := n; mealType := t; foods := f; totalCalories := c;
               analysisMethod := a |} |}.

Definition jpegData (image : unit) : option string := Some "JPEG".

Definition photo_view : MealAnalysisView (Double := Z) (UIImage := unit) :=
  {| selectedImage := Some (); userInput := "a bowl of oats"; corrections := "";
     mealResponse := Some oatmeal; isAnalyzing := false; view_errorMessage := None |}.

(** With a photo and no stored token the analysis, which needs no
    token, is not requested. *)
Lemma photo_analysis_stops_at_upload_witness :
  view_analyzeMeal (Codable3 := Codable_MealResponse) URL_init healthy foundationDescription
    "boundary" jpegData photo_view at_launch
  = ({| selectedImage := Some (); userInput := "a bowl of oats"; corrections := "";
        mealResponse := Some oatmeal; isAnalyzing := false;
        view_errorMessage := Some "Not authenticated" |}, at_launch).
Proof.
  refine (proj1 (photo_analysis_stops_at_upload (Codable3 := Codable_MealResponse)
                   URL_init healthy foundationDescription "boundary" jpegData
                   photo_view at_launch at_launch "JPEG" notAuthenticated _ _)).
  - reflexivity.
  - reflexivity.
Defined.



(** *** More scenarios of the React Native client *)


(** The message of the error that an unbound identifier raises. *)
Definition unbound (name : string) : RN.exn Z :=
  RN.Error (JStr (name +:+ " is not defined")).

Definition trim (s : string) : string := s.

Definition photo_screen : RN.MealAnalysisScreen (number := Z) :=
  {| RN.selectedImage := JObj {[ "uri" := JStr "file:///meal.jpg" ]};
     RN.userInput := "a bowl of oats"; RN.mealResult := JNull; RN.isAnalyzing := true;
     RN.showSaveOptions := false |}.

(** The analysis is answered with the analysed meal. *)
Definition analysing : list (string * RN.Config Z) → string → RN.Config Z
                       → option (RN.Response Z) :=
  serves {[ RN.API_BASE_URL +:+ "/ai/analyze-meal"
              := {| RN.status := 200; RN.response_body := JSONData oatmeal_result |} ]}.

Lemma analyzeMeal_with_photo_witness :
  RN.analyzeMeal number_falsy analysing unbound trim alice_logs_in photo_screen idle
  = (RN.setIsAnalyzing false photo_screen,
     {| RN.network := [];
        RN.alerts := [("Error", "Failed to analyze meal. Please try again.")];
        RN.console := [("Analysis error:", unbound "API_BASE_URL")] |}).
Proof.
  refine (RN.analyzeMeal_with_photo number_falsy analysing unbound trim alice_logs_in
            photo_screen idle _ _).
  - done.
  - reflexivity.
Defined.

Lemma analyzeMeal_text_only_witness :
  let '(screen, w) :=
    RN.analyzeMeal number_falsy analysing unbound trim alice_logs_in analysed_screen idle in
  RN.mealResult screen = oatmeal_result ∧ RN.showSaveOptions screen = true ∧
  RN.alerts w = [] ∧ length (RN.network w) = 1%nat.
Proof.
  pose proof (RN.analyzeMeal_text_only number_falsy analysing unbound trim alice_logs_in
                analysed_screen idle) as Hrun.
  cbv zeta in Hrun.
  destruct (RN.analyzeMeal number_falsy analysing unbound trim alice_logs_in
              analysed_screen idle) as [screen w].
  destruct Hrun as (Hnetwork & _ & _ & _ & _ & Hresult & Hshown & Halerts).
  - done.
  - reflexivity.
  - rewrite Hnetwork. done.
Defined.

(** A log whose total is an object with a member named toString, as a
    JSON body can hold: neither the daily total nor the grouping by such
    a meal time gets past it. *)
Definition odd_total : json Z :=
  JObj (<[ "meal_time" := JStr "lunch" ]>
          {[ "total_calories" := JObj {[ "toString" := JNum 0%Z ]} ]}).

Definition odd_meal_time : json Z :=
  JObj (<[ "meal_time" := JObj {[ "toString" := JNum 0%Z ]} ]>
          {[ "total_calories" := JNum 300%Z ]}).

Lemma odd_logs_throw :
  RN.totalCalories (λ z, z) js_add (JArr [odd_total]) = inl RN.TypeError ∧
  RN.groupedLogs ToString (λ _, false) (JArr [odd_meal_time]) = inl RN.TypeError ∧
  RN.totalCalories (λ z, z) js_add (JArr [odd_meal_time]) = inr (JNum 300%Z).
Proof. vm_compute. done. Qed.







End Scenarios.
